(** * Clinical trial matcher: the request handlers and the report summary

    A shallow embedding of the JavaScript of the repository:

    - [Route.POST]        frontend/app/api/match/route.js, the handler
                          without admission control;
    - [RateLimited.POST]  the handler that keeps the per-address counter
                          [userRequests] (the variant of route.js with
                          [MAX_REQUESTS_PER_IP]);
    - [Report]            frontend/app/components/PDFReport.js, the counts
                          and the analysis text of [TrialReport].
    - [Card]              the same file, the cards of the matches;
    - [Page]              frontend/app/page.js, [getStatusIcon] and
                          [handleSubmit];
    - [Proxy.POST]        the handler that forwards the request to the
                          Python backend and falls back when that fails.

    The handlers are [async] functions.  They are written once, as programs
    of a small free monad whose actions are the accesses to the shared map,
    the reads of the environment and the awaited calls.  Two interpreters
    give them meaning: [run] executes one request from its first statement
    to its [return]; [step] executes one request up to its next [await], so
    that several requests in flight interleave the way the event loop of
    the JavaScript runtime interleaves them. *)

From Stdlib Require Import ZArith List Ascii String Lia.
From stdpp Require Import base option list gmap pretty.

Local Open Scope nat_scope.

(** ** Strings and values *)

(** A JavaScript string is a sequence of UTF-16 code units; [length],
    [slice] and [substring] count code units. *)
Abbreviation jsstring := (list N).

(** The code units of a literal of the source (all of them are ASCII). *)
Definition lit (s : string) : jsstring :=
  List.map N_of_ascii (list_ascii_of_string s).

Definition newline : jsstring := [10%N].
Definition dquote : jsstring := [34%N].

(** [s.slice(0, n)] and [s.substring(0, n)] for a literal [n >= 0]. *)
Definition slice0 (n : nat) (s : jsstring) : jsstring := firstn n s.
Definition substring0 (n : nat) (s : jsstring) : jsstring := firstn n s.

(** [cut] is [text] truncated at [n] code units: the beginning of [text],
    and all of it when it has no more than [n]. *)
Definition truncated (n : nat) (cut text : jsstring) : Prop :=
  cut `prefix_of` text ∧ length cut = length text `min` n.

Inductive backend_failure : Type :=
| Timeout
| ProviderRateLimit
| NetworkError
| OtherFailure.

Inductive js_error : Type :=
| SyntaxError                       (* request.json() on a malformed body *)
| TypeError                         (* property read on null or undefined *)
| ImportError                       (* import('groq-sdk') rejected *)
| BackendError (why : backend_failure).

(** What a computation that may throw ends with. *)
Inductive outcome (A : Type) : Type :=
| Returned (a : A)
| Uncaught (e : js_error).
Arguments Returned {A} a.
Arguments Uncaught {A} e.

Global Instance outcome_ret : MRet outcome := fun A a => Returned a.
Global Instance outcome_bind : MBind outcome := fun A B f o =>
  match o with
  | Returned a => f a
  | Uncaught e => Uncaught e
  end.

(** The integers that a number holds exactly and prints digit by digit:
    those of magnitude below 2^53. *)
Definition safe_integer : Type := dsig (fun n : Z => (Z.abs n < 2 ^ 53)%Z).

(** The values a field of a parsed JSON body can hold.

    A number is a double.  [JNum n] is the safe integer [n] (an age); the
    negative zero, which is falsy and prints 0 as well, is [JNum 0].  Any
    other number (a fraction, an integer from 2^53 on, an infinity for a
    literal beyond the doubles) is [JNumber shown], where [shown] is the
    text its conversion to a string gives; it is not zero.

    An array or an object is [JObject shown], where [shown] is the text its
    conversion to a string gives, or [None] when that conversion throws
    (as for an object with an own [toString] that is not a function).
    Truthiness and this text are all that the code observes of it. *)
Inductive jsval : Type :=
| JUndefined
| JNull
| JBool (b : bool)
| JNum (n : safe_integer)
| JNumber (shown : jsstring)
| JStr (s : jsstring)
| JObject (shown : option jsstring).

Global Instance jsval_eq_dec : EqDecision jsval.
Proof. solve_decision. Defined.

(** The number of a safe integer; for a literal the proof is [I]. *)
Definition int (n : Z) (safe : bool_decide (Z.abs n < 2 ^ 53)%Z) : jsval :=
  JNum (n ↾ safe).

(** ToBoolean. *)
Definition truthy (v : jsval) : bool :=
  match v with
  | JUndefined | JNull => false
  | JBool b => b
  | JNum n => negb (`n =? 0)%Z
  | JNumber _ => true
  | JStr s => match s with [] => false | _ => true end
  | JObject _ => true
  end.

(** ToString, as a template literal and [+] with a string apply it (for a
    value read from JSON the two conversions give the same).  It throws a
    TypeError for an array or an object that has no usable [toString] and
    [valueOf]. *)
Definition to_string (v : jsval) : outcome jsstring :=
  match v with
  | JUndefined => Returned (lit "undefined")
  | JNull => Returned (lit "null")
  | JBool true => Returned (lit "true")
  | JBool false => Returned (lit "false")
  | JNum n => Returned (lit (pretty (`n)))
  | JNumber shown => Returned shown
  | JStr s => Returned s
  | JObject (Some shown) => Returned shown
  | JObject None => Uncaught TypeError
  end.

(** [a || b]. *)
Definition js_or (a b : jsval) : jsval := if truthy a then a else b.

(** [a === b] where [b] is a string literal. *)
Definition strict_eq_lit (a : jsval) (b : string) : bool :=
  bool_decide (a = JStr (lit b)).

(** ** The request, its body and the environment *)

Record PatientData : Type := {
  age : jsval;
  gender : jsval;
  conditions : jsval;
  medications : jsval;
  biomarkers : jsval
}.

(** What [request.json()] resolves to: JSON [null], or a value whose five
    properties of interest are read ([JUndefined] when absent; a number, a
    string or an array has none of them). *)
Inductive json_body : Type :=
| BodyNull
| BodyFields (pd : PatientData).

(** The outcome of an awaited promise. *)
Inductive settled (X : Type) : Type :=
| Fulfilled (x : X)
| Rejected (e : js_error).
Arguments Fulfilled {X} x.
Arguments Rejected {X} e.

(** [completion.choices], each choice given by its [message.content]
    ([None] for [null]). *)
Definition completion : Type := list (option jsstring).

Record Request : Type := {
  x_forwarded_for : option jsstring;   (* request.headers.get('x-forwarded-for') *)
  x_real_ip : option jsstring;         (* request.headers.get('x-real-ip') *)
  json : settled json_body             (* request.json() *)
}.

(** What lies outside the handler while it serves one request. *)
Record Env : Type := {
  GROQ_API_KEY : option jsstring;                        (* process.env.GROQ_API_KEY *)
  import_groq : settled unit;                            (* import('groq-sdk') *)
  chat_create : jsstring -> jsstring -> settled completion
    (* groq.chat.completions.create, by model and prompt *)
}.

(** ** Responses *)

Record match_result : Type := {
  nct_id : jsstring;
  title : jsstring;
  status : jsstring;
  explanation : jsstring
}.

Inductive payload : Type :=
| Matches (message : jsstring) (matches : list match_result)
| Failure (error : jsstring).

Record response : Type := {
  body : payload;
  http_status : nat
}.

(** [NextResponse.json(body, { status })]; the status defaults to 200. *)
Definition NextResponse_json (b : payload) (init : option nat) : response :=
  {| body := b; http_status := default 200 init |}.

Definition matches_of (r : response) : list match_result :=
  match body r with
  | Matches _ ms => ms
  | Failure _ => []
  end.

(** ** Programs *)

(** The actions of a handler.  The last three are awaited: the handler is
    suspended there until the promise settles. *)
Inductive action : Type -> Type :=
| MapGet (key : jsstring) : action (option nat)          (* userRequests.get(key) *)
| MapSet (key : jsstring) (v : nat) : action unit        (* userRequests.set(key, v) *)
| EnvGroqKey : action (option jsstring)                  (* process.env.GROQ_API_KEY *)
| ConsoleError (e : js_error) : action unit              (* console.error(..., e) *)
| RequestJson (request : Request) : action (settled json_body)
| ImportGroq : action (settled unit)
| ChatCreate (model prompt : jsstring) : action (settled completion).

Inductive prog (A : Type) : Type :=
| Ret (a : A)
| Throw (e : js_error)
| Act {X : Type} (a : action X) (k : X -> prog A).
Arguments Ret {A} a.
Arguments Throw {A} e.
Arguments Act {A X} a k.

Fixpoint bind {A B : Type} (p : prog A) (f : A -> prog B) : prog B :=
  match p with
  | Ret a => f a
  | Throw e => Throw e
  | Act a k => Act a (fun x => bind (k x) f)
  end.

Global Instance prog_ret : MRet prog := fun A a => Ret a.
Global Instance prog_bind : MBind prog := fun A B f p => bind p f.

(** [try { p } catch (error) { h error }]. *)
Fixpoint try_catch {A : Type} (p : prog A) (h : js_error -> prog A) : prog A :=
  match p with
  | Ret a => Ret a
  | Throw e => h e
  | Act a k => Act a (fun x => try_catch (k x) h)
  end.

Definition act {X : Type} (a : action X) : prog X := Act a Ret.

(** [await a]: the value of a fulfilled promise, a throw for a rejected one. *)
Definition await {X : Type} (a : action (settled X)) : prog X :=
  Act a (fun r => match r with Fulfilled x => Ret x | Rejected e => Throw e end).

Definition suspends {X : Type} (a : action X) : bool :=
  match a with
  | RequestJson _ | ImportGroq | ChatCreate _ _ => true
  | _ => false
  end.

(** ** Execution of one request *)

Inductive event : Type :=
| EvRequestJson
| EvImportGroq
| EvChatCreate (model prompt : jsstring)
| EvConsoleError (e : js_error).

(** One action on the shared map [userRequests], in the environment [env]:
    its result, the map afterwards and what an observer sees of it. *)
Definition perform {X : Type} (env : Env) (a : action X) (m : gmap jsstring nat)
  : X * gmap jsstring nat * list event :=
  match a in action X return X * gmap jsstring nat * list event with
  | MapGet key => (m !! key, m, [])
  | MapSet key v => (tt, <[key := v]> m, [])
  | EnvGroqKey => (GROQ_API_KEY env, m, [])
  | ConsoleError e => (tt, m, [EvConsoleError e])
  | RequestJson request => (json request, m, [EvRequestJson])
  | ImportGroq => (import_groq env, m, [EvImportGroq])
  | ChatCreate model prompt =>
      (chat_create env model prompt, m, [EvChatCreate model prompt])
  end.

Record result (A : Type) : Type := {
  out : outcome A;
  store : gmap jsstring nat;
  trace : list event
}.
Arguments out {A} r.
Arguments store {A} r.
Arguments trace {A} r.

(** The events [evs] happened before those of [r]. *)
Definition emit {A : Type} (evs : list event) (r : result A) : result A :=
  {| out := out r; store := store r; trace := evs ++ trace r |}.

(** A request served alone, from its first statement to its end. *)
Fixpoint run {A : Type} (env : Env) (p : prog A) (m : gmap jsstring nat)
  : result A :=
  match p with
  | Ret a => {| out := Returned a; store := m; trace := [] |}
  | Throw e => {| out := Uncaught e; store := m; trace := [] |}
  | Act a k =>
      let '(x, m', evs) := perform env a m in
      emit evs (run env (k x) m')
  end.

(** ** What the two handlers share *)

(** [request.headers.get(a) || d]: a missing header is [null], and an empty
    one is falsy too. *)
Definition header_or (h : option jsstring) (d : jsstring) : jsstring :=
  match h with
  | Some (c :: s) => c :: s
  | _ => d
  end.

(** [!!process.env.GROQ_API_KEY]. *)
Definition has_key (k : option jsstring) : bool :=
  match k with
  | Some (_ :: _) => true
  | _ => false
  end.

(** A computation that may throw, inside a handler. *)
Definition lift {A : Type} (o : outcome A) : prog A :=
  match o with
  | Returned a => Ret a
  | Uncaught e => Throw e
  end.

(** [patientData.f]: reading a property of [null] throws. *)
Definition prop (patientData : json_body) (f : PatientData -> jsval) : prog jsval :=
  match patientData with
  | BodyNull => Throw TypeError
  | BodyFields pd => Ret (f pd)
  end.

(** [completion.choices[0].message.content], on which [slice] is called:
    it throws when there is no first choice or its content is [null]. *)
Definition first_content (c : completion) : prog jsstring :=
  match c with
  | Some content :: _ => Ret content
  | _ => Throw TypeError
  end.

(** The awaited completion has no text to [slice]: the call was rejected,
    or it returned without a first choice or with a [null] content. *)
Definition no_text (s : settled completion) : bool :=
  match s with
  | Fulfilled (Some _ :: _) => false
  | _ => true
  end.

Record Trial : Type := {
  trial_nct_id : string;
  trial_title : string;
  trial_conditions : string;
  trial_phase : string
}.

Definition SAMPLE_TRIALS : list Trial :=
  [ {| trial_nct_id := "NCT04743505";
       trial_title := "Study of Novel Therapy for Lung Cancer";
       trial_conditions := "Non-Small Cell Lung Cancer";
       trial_phase := "Phase 3" |};
    {| trial_nct_id := "NCT05745350";
       trial_title := "Diabetes Management Trial";
       trial_conditions := "Type 2 Diabetes";
       trial_phase := "Phase 2" |} ].

(** [JSON.stringify] of a list of trials (their texts hold no character
    that JSON escapes). *)
Definition json_string (s : string) : jsstring := dquote ++ lit s ++ dquote.

Definition json_member (name value : string) : jsstring :=
  json_string name ++ lit ":" ++ json_string value.

Definition json_trial (t : Trial) : jsstring :=
  lit "{" ++ json_member "nct_id" (trial_nct_id t)
  ++ lit "," ++ json_member "title" (trial_title t)
  ++ lit "," ++ json_member "conditions" (trial_conditions t)
  ++ lit "," ++ json_member "phase" (trial_phase t) ++ lit "}".

Fixpoint json_join (l : list jsstring) : jsstring :=
  match l with
  | [] => []
  | [x] => x
  | x :: rest => x ++ lit "," ++ json_join rest
  end.

Definition JSON_stringify (ts : list Trial) : jsstring :=
  lit "[" ++ json_join (List.map json_trial ts) ++ lit "]".

(** The analysis prompt.  The two files differ in white space only: route.js
    has a blank after the gender's comma and four blanks on its empty
    lines; [gap] and [empty] are these. *)
Definition prompt_text (gap empty : string)
    (age gender conditions medications biomarkers : jsstring) : jsstring :=
  lit "Analyze if this patient is eligible for clinical trials:" ++ newline
  ++ lit "    Patient: Age " ++ age ++ lit ", " ++ gender
  ++ lit "," ++ lit gap ++ newline
  ++ lit "    Conditions: " ++ conditions ++ newline
  ++ lit "    Medications: " ++ medications ++ newline
  ++ lit "    Biomarkers: " ++ biomarkers ++ newline
  ++ lit empty ++ newline
  ++ lit "    Available trials: " ++ JSON_stringify SAMPLE_TRIALS ++ newline
  ++ lit empty ++ newline
  ++ lit "    Return a JSON array with eligibility status for each trial.".

(** The template literal converts the five values in turn; a conversion
    that throws ends it. *)
Definition analysis_prompt (gap empty : string)
    (age gender conditions medications biomarkers : jsval) : outcome jsstring :=
  age ← to_string age;
  gender ← to_string gender;
  conditions ← to_string conditions;
  medications ← to_string (js_or medications (JStr (lit "None")));
  biomarkers ← to_string (js_or biomarkers (JStr (lit "None")));
  mret (prompt_text gap empty age gender conditions medications biomarkers).

(** The three bodies a handler answers with, and the one of the limiter;
    [shown] is the text of [patientData.conditions]. *)
Definition demo_response (shown : jsstring) : response :=
  NextResponse_json
    (Matches (lit "Running in demo mode (no API key configured)")
       [ {| nct_id := lit "NCT-DEMO-001";
            title := lit "Demo Trial for " ++ shown;
            status := lit "NEEDS_REVIEW";
            explanation :=
              lit "This is a demo result. Configure Groq API for real matching." |} ])
    None.

Definition analysis_response (content : jsstring) : response :=
  NextResponse_json
    (Matches (lit "Analysis complete")
       [ {| nct_id := lit "NCT04743505";
            title := lit "Lung Cancer Study";
            status := lit "ELIGIBLE";
            explanation := slice0 200 content |} ])
    None.

Definition error_response : response :=
  NextResponse_json (Failure (lit "Failed to process request")) (Some 500).

Definition limit_response : response :=
  NextResponse_json
    (Matches
       (lit "You've reached the free usage limit (10 searches). Please contact for unlimited access.")
       [])
    (Some 429).

(** [catch (error) { console.error('API Error:', error); return ... 500 }]. *)
Definition on_error (error : js_error) : prog response :=
  act (ConsoleError error) ;; Ret error_response.

(** ** frontend/app/api/match/route.js *)

(** [new Groq({ apiKey })] builds the client of the SDK and does nothing
    else; the options [max_tokens: 500] and [temperature: 0.3] of the call
    are constants.  Neither is part of the model. *)

Module Route.

Definition POST (request : Request) : prog response :=
  try_catch
    (patientData ← await (RequestJson request);
     key ← act EnvGroqKey;
     let hasGroqKey := has_key key in
     if negb hasGroqKey then
       conditions ← prop patientData conditions;
       shown ← lift (to_string conditions);   (* "Demo Trial for " + ... *)
       Ret (demo_response shown)
     else
       await ImportGroq ;;
       age ← prop patientData age;
       gender ← prop patientData gender;
       conditions ← prop patientData conditions;
       medications ← prop patientData medications;
       biomarkers ← prop patientData biomarkers;
       prompt ←
         lift (analysis_prompt " " "    " age gender conditions medications
                 biomarkers);
       completion ← await (ChatCreate (lit "llama-3.3-70b-versatile") prompt);
       content ← first_content completion;
       Ret (analysis_response content))
    on_error.

End Route.

(** ** The handler with the per-address quota *)

Module RateLimited.

Definition MAX_REQUESTS_PER_IP : nat := 10.

Definition POST (request : Request) : prog response :=
  try_catch
    (let ip :=
       header_or (x_forwarded_for request)
         (header_or (x_real_ip request) (lit "unknown")) in
     found ← act (MapGet ip);
     let userCount := default 0 found in
     if bool_decide (MAX_REQUESTS_PER_IP ≤ userCount) then
       (* userCount >= MAX_REQUESTS_PER_IP *)
       Ret limit_response
     else
       patientData ← await (RequestJson request);
       key ← act EnvGroqKey;
       let hasGroqKey := has_key key in
       if negb hasGroqKey then
         conditions ← prop patientData conditions;
         shown ← lift (to_string conditions);   (* "Demo Trial for " + ... *)
         Ret (demo_response shown)
       else
         await ImportGroq ;;
         age ← prop patientData age;
         gender ← prop patientData gender;
         conditions ← prop patientData conditions;
         medications ← prop patientData medications;
         biomarkers ← prop patientData biomarkers;
         prompt ←
           lift (analysis_prompt "" "" age gender conditions medications
                   biomarkers);
         completion ← await (ChatCreate (lit "llama-3.2-3b-preview") prompt);
         act (MapSet ip (userCount + 1)) ;;
         content ← first_content completion;
         Ret (analysis_response content))
    on_error.

(** The address the quota is counted under, and its count:
    [userRequests.get(ip) || 0]. *)
Definition ip_of (request : Request) : jsstring :=
  header_or (x_forwarded_for request)
    (header_or (x_real_ip request) (lit "unknown")).

Definition count (m : gmap jsstring nat) (ip : jsstring) : nat :=
  default 0 (m !! ip).

End RateLimited.

(** ** Requests in flight *)

(** The runtime runs one handler at a time and switches to another only
    where the running one awaits: between two awaits a handler is not
    interrupted.  When the awaited promises settle is up to the network, so
    the turns of the requests in flight may come in any order; a schedule
    is the list of the requests that get the turns.

    A request being served: suspended at the [await] at the head of its
    program (or not started yet), or finished. *)
Inductive inflight : Type :=
| Pending (env : Env) (p : prog response)
| Done (o : outcome response).

(** A handler runs without interruption until it awaits. *)
Fixpoint until_await (env : Env) (p : prog response) (m : gmap jsstring nat)
  : inflight * gmap jsstring nat :=
  match p with
  | Ret r => (Done (Returned r), m)
  | Throw e => (Done (Uncaught e), m)
  | Act a k =>
      if suspends a then (Pending env p, m)
      else let '(x, m', _) := perform env a m in until_await env (k x) m'
  end.

(** One turn of the event loop given to a request in flight: the action at
    the head of its program is performed (the awaited promise has settled)
    and the handler goes on to its next [await]. *)
Definition resume (t : inflight) (m : gmap jsstring nat)
  : inflight * gmap jsstring nat :=
  match t with
  | Done o => (Done o, m)
  | Pending env (Act a k) =>
      let '(x, m', _) := perform env a m in until_await env (k x) m'
  | Pending env p => until_await env p m
  end.

(** The requests in flight and the map they share. *)
Definition step (i : nat) (c : list inflight * gmap jsstring nat)
  : list inflight * gmap jsstring nat :=
  match c.1 !! i with
  | Some t => let '(t', m') := resume t c.2 in (<[i := t']> c.1, m')
  | None => c
  end.

Definition schedule (turns : list nat) (c : list inflight * gmap jsstring nat)
  : list inflight * gmap jsstring nat :=
  foldl (fun c i => step i c) c turns.

(** [n] turns given to one request. *)
Fixpoint drive (n : nat) (c : inflight * gmap jsstring nat)
  : inflight * gmap jsstring nat :=
  match n with
  | 0 => c
  | S n' => drive n' (resume c.1 c.2)
  end.

(** ** Requests served one after the other *)

Module Sequential.

Fixpoint serve_all (reqs : list (Env * Request)) (m : gmap jsstring nat)
  : list (outcome response) * gmap jsstring nat :=
  match reqs with
  | [] => ([], m)
  | (env, request) :: rest =>
      let r := run env (RateLimited.POST request) m in
      let '(outs, m') := serve_all rest (store r) in
      (out r :: outs, m')
  end.

(** The request reaches the backend and the backend returns a completion
    (the model and the prompt are those of [RateLimited.POST]). *)
Definition backend_returns (env : Env) (request : Request) : option completion :=
  match json request with
  | Fulfilled (BodyFields pd) =>
      if has_key (GROQ_API_KEY env) then
        match import_groq env with
        | Fulfilled _ =>
            match analysis_prompt "" "" (age pd) (gender pd) (conditions pd)
                    (medications pd) (biomarkers pd) with
            | Returned prompt =>
                match chat_create env (lit "llama-3.2-3b-preview") prompt with
                | Fulfilled c => Some c
                | Rejected _ => None
                end
            | Uncaught _ => None
            end
        | Rejected _ => None
        end
      else None
  | _ => None
  end.

(** The request completes with the analysis of a text [content]. *)
Definition succeeds (env : Env) (request : Request) : bool :=
  match backend_returns env request with
  | Some (Some _ :: _) => true
  | _ => false
  end.

(** The request is counted: it passes the limit and the backend returns. *)
Definition counted (env : Env) (request : Request) (m : gmap jsstring nat) : bool :=
  bool_decide (RateLimited.count m (RateLimited.ip_of request) < RateLimited.MAX_REQUESTS_PER_IP)
  && bool_decide (is_Some (backend_returns env request)).

End Sequential.

(** ** frontend/app/components/PDFReport.js *)

Module Report.

(** A match as the report receives it, in the JSON of the response: any
    property may be absent or of any type. *)
Record Match : Type := {
  nct_id : jsval;
  title : jsval;
  status : jsval;
  explanation : jsval
}.

Record Results : Type := {
  message : jsval;
  matches : option (list Match)      (* results.matches, possibly undefined *)
}.

(** [results.matches?.filter(m => m.status === s).length || 0]. *)
Definition count_status (results : Results) (s : string) : nat :=
  match matches results with
  | Some ms => length (List.filter (fun m => strict_eq_lit (status m) s) ms)
  | None => 0
  end.

Definition eligibleCount (results : Results) : nat := count_status results "ELIGIBLE".
Definition notEligibleCount (results : Results) : nat := count_status results "NOT_ELIGIBLE".
Definition reviewCount (results : Results) : nat := count_status results "NEEDS_REVIEW".

(** [results.matches?.length || 0]. *)
Definition totalCount (results : Results) : nat :=
  match matches results with
  | Some ms => length ms
  | None => 0
  end.

(** The text after "Analysis: " on the card of a match; the template
    literal converts the conditions and the explanation, and throws when
    one of them cannot be converted. *)
Definition analysis_text (patient : PatientData) (m : Match) : outcome jsstring :=
  if truthy (explanation m) then
    shown ← to_string (js_or (conditions patient) (JStr (lit "condition")));
    explained ← to_string (explanation m);
    mret (substring0 300
            (lit "Based on the patient's "
             ++ shown
             ++ lit " and biomarkers, this trial appears to be a "
             ++ (if strict_eq_lit (status m) "ELIGIBLE" then lit "good" else lit "potential")
             ++ lit " match. " ++ explained))
  else
    mret (lit "Detailed eligibility analysis requires consultation with the trial coordinator.").

(** A MatchResult of the data model: its status is one of the three. *)
Definition is_match_result (m : Match) : Prop :=
  status m = JStr (lit "ELIGIBLE")
  ∨ status m = JStr (lit "NOT_ELIGIBLE")
  ∨ status m = JStr (lit "NEEDS_REVIEW").

Global Instance is_match_result_dec m : Decision (is_match_result m).
Proof. unfold is_match_result. apply _. Defined.

(** The response of a handler, as the page hands it to the report. *)
Definition of_match_result (mr : match_result) : Match :=
  let '(Build_match_result n t s e) := mr in
  {| nct_id := JStr n; title := JStr t; status := JStr s; explanation := JStr e |}.

Definition of_response (r : response) : Results :=
  match body r with
  | Matches msg ms =>
      {| message := JStr msg; matches := Some (List.map of_match_result ms) |}
  | Failure _ => {| message := JUndefined; matches := None |}
  end.

End Report.

(** ** The handlers in direct style *)

(** What [run] computes for the handlers, by cases on what the request and
    the environment hold; [DirectFacts.run_Route_POST] and
    [DirectFacts.run_RateLimited_POST] prove it. *)
Module Direct.

(** The [catch] block was entered with [e] after the events [evs]. *)
Definition failed (evs : list event) (e : js_error) (m : gmap jsstring nat)
  : result response :=
  {| out := Returned error_response;
     store := m;
     trace := evs ++ [EvConsoleError e] |}.

(** From [await request.json()] on; [bump] is what a returned backend call
    does to the map. *)
Definition served (model : jsstring) (gap empty : string)
    (bump : gmap jsstring nat -> gmap jsstring nat)
    (env : Env) (request : Request) (m : gmap jsstring nat) : result response :=
  match json request with
  | Rejected e => failed [EvRequestJson] e m
  | Fulfilled patientData =>
      if has_key (GROQ_API_KEY env) then
        match import_groq env with
        | Rejected e => failed [EvRequestJson; EvImportGroq] e m
        | Fulfilled _ =>
            match patientData with
            | BodyNull => failed [EvRequestJson; EvImportGroq] TypeError m
            | BodyFields pd =>
                match analysis_prompt gap empty (age pd) (gender pd)
                        (conditions pd) (medications pd) (biomarkers pd) with
                | Uncaught e => failed [EvRequestJson; EvImportGroq] e m
                | Returned prompt =>
                    let evs :=
                      [EvRequestJson; EvImportGroq; EvChatCreate model prompt] in
                    match chat_create env model prompt with
                    | Rejected e => failed evs e m
                    | Fulfilled (Some content :: _) =>
                        {| out := Returned (analysis_response content);
                           store := bump m;
                           trace := evs |}
                    | Fulfilled _ => failed evs TypeError (bump m)
                    end
                end
            end
        end
      else
        match patientData with
        | BodyNull => failed [EvRequestJson] TypeError m
        | BodyFields pd =>
            match to_string (conditions pd) with
            | Uncaught e => failed [EvRequestJson] e m
            | Returned shown =>
                {| out := Returned (demo_response shown);
                   store := m;
                   trace := [EvRequestJson] |}
            end
        end
  end.

Definition Route_POST (env : Env) (request : Request) (m : gmap jsstring nat)
  : result response :=
  served (lit "llama-3.3-70b-versatile") " " "    " id env request m.

Definition RateLimited_POST (env : Env) (request : Request) (m : gmap jsstring nat)
  : result response :=
  let ip := RateLimited.ip_of request in
  let userCount := RateLimited.count m ip in
  if bool_decide (RateLimited.MAX_REQUESTS_PER_IP ≤ userCount) then
    {| out := Returned limit_response; store := m; trace := [] |}
  else
    served (lit "llama-3.2-3b-preview") "" "" (<[ip := userCount + 1]>) env request m.

End Direct.

(** ** Concrete requests and environments *)

Module Scenario.

Definition client : jsstring := lit "1.2.3.4".

(** The profile of the README's request. *)
Definition profile : PatientData :=
  {| age := int 55 I;
     gender := JStr (lit "Male");
     conditions := JStr (lit "Non-Small Cell Lung Cancer");
     medications := JStr (lit "Carboplatin");
     biomarkers := JStr (lit "PD-L1: 60%") |}.

(** A profile with no conditions and an age below 18. *)
Definition bad_profile : PatientData :=
  {| age := int 5 I;
     gender := JStr (lit "Male");
     conditions := JUndefined;
     medications := JStr [];
     biomarkers := JStr [] |}.

Definition request_with (pd : PatientData) : Request :=
  {| x_forwarded_for := Some client;
     x_real_ip := None;
     json := Fulfilled (BodyFields pd) |}.

Definition request : Request := request_with profile.
Definition bad_request : Request := request_with bad_profile.

(** A request whose body is not JSON. *)
Definition malformed_request : Request :=
  {| x_forwarded_for := Some client;
     x_real_ip := None;
     json := Rejected SyntaxError |}.

(** The credential is set and the backend answers every prompt with [c]. *)
Definition env_answering (c : completion) : Env :=
  {| GROQ_API_KEY := Some (lit "gsk_test");
     import_groq := Fulfilled tt;
     chat_create := fun _ _ => Fulfilled c |}.

Definition answer : jsstring := lit "The patient matches the first trial.".
Definition env_ok : Env := env_answering [Some answer].

(** The credential is set and the backend call fails. *)
Definition env_failing (why : backend_failure) : Env :=
  {| GROQ_API_KEY := Some (lit "gsk_test");
     import_groq := Fulfilled tt;
     chat_create := fun _ _ => Rejected (BackendError why) |}.

(** No credential. *)
Definition env_demo : Env :=
  {| GROQ_API_KEY := None;
     import_groq := Fulfilled tt;
     chat_create := fun _ _ => Rejected (BackendError OtherFailure) |}.

(** Eleven requests of one client, all in flight, served turn by turn:
    every one of them runs to its next [await] before any goes on. *)
Definition eleven : list inflight :=
  replicate 11 (Pending env_ok (RateLimited.POST request)).

Definition round_robin : list nat :=
  let round := seq 0 11 in round ++ round ++ round ++ round.

(** The same eleven, one after the other. *)
Definition eleven_in_turn : list (Env * Request) := replicate 11 (env_ok, request).
Definition ten_in_turn : list (Env * Request) := replicate 10 (env_ok, request).

(** A response the report receives. *)
Definition report_input : Report.Results :=
  {| Report.message := JStr (lit "Analysis complete");
     Report.matches :=
       Some [ {| Report.nct_id := JStr (lit "NCT04743505");
                 Report.title := JStr (lit "Lung Cancer Study");
                 Report.status := JStr (lit "ELIGIBLE");
                 Report.explanation := JStr answer |};
              {| Report.nct_id := JStr (lit "NCT05745350");
                 Report.title := JStr (lit "Diabetes Management Trial");
                 Report.status := JStr (lit "NOT_ELIGIBLE");
                 Report.explanation := JStr [] |};
              {| Report.nct_id := JStr (lit "NCT-DEMO-001");
                 Report.title := JStr (lit "Demo Trial");
                 Report.status := JStr (lit "NEEDS_REVIEW");
                 Report.explanation := JUndefined |} ] |}.

End Scenario.

(** ** The limit under any order of turns *)

Module Limit.

(** The action writes no count above [n]. *)
Definition writes_within (n : nat) {X : Type} (a : action X) : Prop :=
  match a with
  | MapSet _ v => v ≤ n
  | _ => True
  end.

(** Whatever it is answered, the program writes no count above [n]. *)
Fixpoint bounded (n : nat) {A : Type} (p : prog A) : Prop :=
  match p with
  | Ret _ | Throw _ => True
  | Act a k => writes_within n a ∧ ∀ x, bounded n (k x)
  end.

Definition inflight_bounded (n : nat) (t : inflight) : Prop :=
  match t with
  | Pending _ p => bounded n p
  | Done _ => True
  end.

(** No address has a count above [n]. *)
Definition within (n : nat) (m : gmap jsstring nat) : Prop :=
  ∀ ip, RateLimited.count m ip ≤ n.

(** Requests that have arrived and not yet run. *)
Definition arrivals (reqs : list (Env * Request)) : list inflight :=
  List.map (fun er => Pending er.1 (RateLimited.POST er.2)) reqs.

End Limit.

(** ** The analyses an address is answered *)

Module Tally.

(** The response is the one of a completed analysis. *)
Definition is_analysis (o : outcome response) : bool :=
  match o with
  | Returned r =>
      match body r with
      | Matches msg _ => bool_decide (msg = lit "Analysis complete")
      | Failure _ => false
      end
  | Uncaught _ => false
  end.

(** Among the requests [reqs] with the outcomes [outs], those of the address
    [ip] that were answered with an analysis. *)
Fixpoint analyses (ip : jsstring) (reqs : list (Env * Request))
    (outs : list (outcome response)) : nat :=
  match reqs, outs with
  | (_, request) :: reqs', o :: outs' =>
      (if bool_decide (RateLimited.ip_of request = ip) && is_analysis o
       then 1 else 0)
      + analyses ip reqs' outs'
  | _, _ => 0
  end.

(** Neither address header is usable: absent, or empty. *)
Definition no_address (request : Request) : bool :=
  match x_forwarded_for request, x_real_ip request with
  | (None | Some []), (None | Some []) => true
  | _, _ => false
  end.

End Tally.

(** ** The cards of the report (PDFReport.js, [TrialReport]) *)

Module Card.

(** [s.replace(from, to)] for one-character strings: the first occurrence
    only. *)
Fixpoint replace_first (from to : N) (s : jsstring) : jsstring :=
  match s with
  | [] => []
  | c :: rest =>
      if (c =? from)%N then to :: rest else c :: replace_first from to rest
  end.

Definition underscore : N := 95.
Definition space : N := 32.

(** [match.status?.replace('_', ' ') || 'UNKNOWN']: [?.] stops at
    [undefined] and [null]; a string is replaced in; any other value has no
    [replace] to call. *)
Definition status_text (status : jsval) : outcome jsstring :=
  match status with
  | JUndefined | JNull => Returned (lit "UNKNOWN")
  | JStr s =>
      Returned
        match replace_first underscore space s with
        | [] => lit "UNKNOWN"
        | c :: shown => c :: shown
        end
  | JBool _ | JNum _ | JNumber _ | JObject _ => Uncaught TypeError
  end.

(** The entries of [styles] a badge is drawn with. *)
Inductive badge : Type :=
| eligible
| notEligible
| needsReview.

Definition backgroundColor (b : badge) : string :=
  match b with
  | eligible => "#D1FAE5"
  | notEligible => "#FEE2E2"
  | needsReview => "#FEF3C7"
  end.

Definition color (b : badge) : string :=
  match b with
  | eligible => "#065F46"
  | notEligible => "#991B1B"
  | needsReview => "#92400E"
  end.

Global Instance badge_eq_dec : EqDecision badge.
Proof. solve_decision. Defined.

(** The style of the badge and the colour given to the text inside it. *)
Definition badge_style (status : jsval) : badge :=
  if strict_eq_lit status "ELIGIBLE" then eligible
  else if strict_eq_lit status "NOT_ELIGIBLE" then notEligible
  else needsReview.

Definition text_color (status : jsval) : string :=
  if strict_eq_lit status "ELIGIBLE" then "#065F46"
  else if strict_eq_lit status "NOT_ELIGIBLE" then "#991B1B"
  else "#92400E".

(** The card of a match, as [TrialReport] builds it. *)
Record Card : Type := {
  card_title : jsval;                 (* match.title || 'Clinical Trial' *)
  card_nct_id : jsval;                (* match.nct_id || 'Not specified' *)
  card_badge : badge;
  card_text_color : string;
  card_status : jsstring;
  card_analysis : jsstring
}.

(** Building the card throws when the text of the status or of the
    analysis does. *)
Definition card (patient : PatientData) (m : Report.Match) : outcome Card :=
  shown ← status_text (Report.status m);
  analysis ← Report.analysis_text patient m;
  mret {| card_title := js_or (Report.title m) (JStr (lit "Clinical Trial"));
          card_nct_id := js_or (Report.nct_id m) (JStr (lit "Not specified"));
          card_badge := badge_style (Report.status m);
          card_text_color := text_color (Report.status m);
          card_status := shown;
          card_analysis := analysis |}.

(** [ms.map(...)]: the callback runs on the matches in turn, and a throw
    in it ends the whole [map]. *)
Fixpoint card_map (patient : PatientData) (ms : list Report.Match)
  : outcome (list Card) :=
  match ms with
  | [] => mret []
  | m :: rest =>
      c ← card patient m;
      cs ← card_map patient rest;
      mret (c :: cs)
  end.

(** [results.matches && results.matches.length > 0
      ? results.matches.slice(0, 5).map(...) : "No trials analyzed."];
    [None] is the line that no trial was analyzed.  A throw while the
    cards are built leaves [TrialReport], which then draws nothing. *)
Definition cards (patient : PatientData) (results : Report.Results)
  : outcome (option (list Card)) :=
  match Report.matches results with
  | Some (x :: ms) =>
      cs ← card_map patient (firstn 5 (x :: ms));
      mret (Some cs)
  | _ => mret None
  end.

(** Among the cards built, those with the badge [b]. *)
Definition badge_count (b : badge) (cs : list Card) : nat :=
  length (List.filter (fun c => bool_decide (card_badge c = b)) cs).

(** The sentence of the analysis before [substring] cuts it. *)
Definition analysis_sentence (patient : PatientData) (m : Report.Match)
  : outcome jsstring :=
  shown ← to_string (js_or (conditions patient) (JStr (lit "condition")));
  explained ← to_string (Report.explanation m);
  mret (lit "Based on the patient's "
        ++ shown
        ++ lit " and biomarkers, this trial appears to be a "
        ++ (if strict_eq_lit (Report.status m) "ELIGIBLE" then lit "good" else lit "potential")
        ++ lit " match. " ++ explained).

End Card.

(** ** frontend/app/page.js *)

Module Page.

Inductive icon : Type :=
| CheckCircle
| XCircle
| AlertCircle.

(** [getStatusIcon], the icon and its classes. *)
Definition getStatusIcon (status : jsval) : icon * string :=
  if strict_eq_lit status "ELIGIBLE" then (CheckCircle, "h-5 w-5 text-green-500")
  else if strict_eq_lit status "NOT_ELIGIBLE" then (XCircle, "h-5 w-5 text-red-500")
  else (AlertCircle, "h-5 w-5 text-yellow-500").

(** The colours of the status pill of a match. *)
Definition status_class (status : jsval) : string :=
  if strict_eq_lit status "ELIGIBLE" then "bg-green-100 text-green-800"
  else if strict_eq_lit status "NOT_ELIGIBLE" then "bg-red-100 text-red-800"
  else "bg-yellow-100 text-yellow-800".

Inductive tab : Type :=
| tab_form                            (* 'form' *)
| tab_results.                        (* 'results' *)

(** The state of [Home] that [handleSubmit] touches; [results] starts as
    [null]. *)
Record State : Type := {
  loading : bool;
  results : option Report.Results;
  activeTab : tab
}.

Definition initial : State :=
  {| loading := false; results := None; activeTab := tab_form |}.

Inductive ui_event : Type :=
| LogError                            (* console.error('Error:', error) *)
| Alert (text : string).

(** What [fetch] and then [response.json()] settle to; the data of a
    response is what the page reads of it, its message and its matches. *)
Definition reply : Type := settled (settled Report.Results).

(** [handleSubmit] up to its first [await]: [setLoading(true)]. *)
Definition handleSubmit_sent (st : State) : State :=
  {| loading := true; results := results st; activeTab := activeTab st |}.

(** [handleSubmit] from the settled [fetch] on: the [try] block or the
    [catch] block, then [finally]. *)
Definition handleSubmit_settled (r : reply) (st : State) : State * list ui_event :=
  match r with
  | Fulfilled (Fulfilled data) =>
      ({| loading := false; results := Some data; activeTab := tab_results |}, [])
  | Fulfilled (Rejected _) | Rejected _ =>
      ({| loading := false; results := results st; activeTab := activeTab st |},
       [LogError; Alert "Something went wrong. Please try again."])
  end.

Definition handleSubmit (r : reply) (st : State) : State * list ui_event :=
  handleSubmit_settled r (handleSubmit_sent st).

(** The number in the label of the results tab:
    [results && `(${results.matches?.length || 0})`]. *)
Definition tab_count (st : State) : option nat :=
  match results st with
  | Some data => Some (Report.totalCount data)
  | None => None
  end.

(** The response of a handler as [fetch] delivers it: the status is not
    part of what [response.json()] gives. *)
Definition delivered (resp : response) : reply :=
  Fulfilled (Fulfilled (Report.of_response resp)).

End Page.

(** ** The handler that forwards to the Python backend *)

Module Proxy.

Section Backend.

(** The JSON the Python backend answers with. *)
Context {J : Type}.

(** What [fetch] resolves to: [pythonResponse.ok] and
    [pythonResponse.json()]. *)
Record PythonResponse : Type := {
  ok : bool;
  python_json : settled J
}.

Inductive thrown : Type :=
| Js (e : js_error)
| PythonBackendError                  (* new Error('Python backend error') *)
| GroqError.                          (* thrown by new Groq(...) *)

(** Outside the handler.  Whether [new Groq({ apiKey })] throws for a key
    is the SDK's: it is taken as given. *)
Record World : Type := {
  python : json_body -> settled PythonResponse;   (* fetch('http://localhost:8000/match', ...) *)
  groq_env : Env;
  new_Groq_throws : option jsstring -> bool
}.

Inductive reply : Type :=
| Forwarded (results : J)
| Fallback (message : jsstring) (matches : list match_result).

Record response : Type := {
  body : reply;
  http_status : nat
}.

(** [NextResponse.json(body)]. *)
Definition NextResponse_json (b : reply) : response :=
  {| body := b; http_status := 200 |}.

Inductive action : Type -> Type :=
| RequestJson (request : Request) : action (settled json_body)
| Fetch (sent : json_body) : action (settled PythonResponse)
| ResponseJson (r : PythonResponse) : action (settled J)
| ConsoleError (e : thrown) : action unit
| ImportGroq : action (settled unit)
| EnvGroqKey : action (option jsstring)
| NewGroq (apiKey : option jsstring) : action bool.

Inductive prog (A : Type) : Type :=
| Ret (a : A)
| Throw (e : thrown)
| Act {X : Type} (a : action X) (k : X -> prog A).
Arguments Ret {A} a.
Arguments Throw {A} e.
Arguments Act {A X} a k.

Fixpoint bind {A B : Type} (p : prog A) (f : A -> prog B) : prog B :=
  match p with
  | Ret a => f a
  | Throw e => Throw e
  | Act a k => Act a (fun x => bind (k x) f)
  end.

Fixpoint try_catch {A : Type} (p : prog A) (h : thrown -> prog A) : prog A :=
  match p with
  | Ret a => Ret a
  | Throw e => h e
  | Act a k => Act a (fun x => try_catch (k x) h)
  end.

Definition act {X : Type} (a : action X) : prog X := Act a Ret.

Definition await {X : Type} (a : action (settled X)) : prog X :=
  Act a (fun r => match r with Fulfilled x => Ret x | Rejected e => Throw (Js e) end).

Inductive event : Type :=
| EvRequestJson
| EvFetch (sent : json_body)
| EvResponseJson
| EvConsoleError (e : thrown)
| EvImportGroq
| EvNewGroq.

Definition perform {X : Type} (w : World) (a : action X) : X * list event :=
  match a in action X return X * list event with
  | RequestJson request => (json request, [EvRequestJson])
  | Fetch sent => (python w sent, [EvFetch sent])
  | ResponseJson r => (python_json r, [EvResponseJson])
  | ConsoleError e => (tt, [EvConsoleError e])
  | ImportGroq => (import_groq (groq_env w), [EvImportGroq])
  | EnvGroqKey => (GROQ_API_KEY (groq_env w), [])
  | NewGroq apiKey => (new_Groq_throws w apiKey, [EvNewGroq])
  end.

Inductive outcome (A : Type) : Type :=
| Returned (a : A)
| Uncaught (e : thrown).
Arguments Returned {A} a.
Arguments Uncaught {A} e.

Fixpoint run {A : Type} (w : World) (p : prog A) : outcome A * list event :=
  match p with
  | Ret a => (Returned a, [])
  | Throw e => (Uncaught e, [])
  | Act a k =>
      let '(x, evs) := perform w a in
      let '(o, rest) := run w (k x) in
      (o, evs ++ rest)
  end.

Definition POST (request : Request) : prog response :=
  try_catch
    (bind (await (RequestJson request)) (fun patientData =>
     bind (await (Fetch patientData)) (fun pythonResponse =>
     if negb (ok pythonResponse) then Throw PythonBackendError
     else
       bind (await (ResponseJson pythonResponse)) (fun results =>
       Ret (NextResponse_json (Forwarded results))))))
    (fun error =>
       bind (act (ConsoleError error)) (fun _ =>
       bind (await ImportGroq) (fun _ =>
       bind (act EnvGroqKey) (fun apiKey =>
       bind (act (NewGroq apiKey)) (fun threw =>
       if threw : bool then Throw GroqError
       else
         Ret (NextResponse_json
                (Fallback (lit "Using fallback matching") []))))))).

(** What the [try] block forwards when nothing in it fails: the JSON of
    the Python backend. *)
Definition forwards (w : World) (request : Request) : option J :=
  match json request with
  | Fulfilled patientData =>
      match python w patientData with
      | Fulfilled pythonResponse =>
          if ok pythonResponse then
            match python_json pythonResponse with
            | Fulfilled results => Some results
            | Rejected _ => None
            end
          else None
      | Rejected _ => None
      end
  | Rejected _ => None
  end.

End Backend.

Arguments Ret {J A} a.
Arguments Throw {J A} e.
Arguments Act {J A X} a k.
Arguments Returned {A} a.
Arguments Uncaught {A} e.
Arguments PythonResponse J : clear implicits.
Arguments World J : clear implicits.
Arguments reply J : clear implicits.
Arguments response J : clear implicits.
Arguments action J X : clear implicits.
Arguments prog J A : clear implicits.

End Proxy.

(** ** How a request ends *)

Module Ending.

(** The events of a request that never got to the SDK. *)
Definition before_sdk (ev : event) : Prop :=
  ev = EvRequestJson ∨ ∃ e, ev = EvConsoleError e.

(** How a request ended: in the [catch] block, logged once and answered
    with the fixed error object and status 500; or out of the [try] block,
    not logged and answered with a message and matches. *)
Definition ended (r : result response) : Prop :=
  (∃ evs e, r = Direct.failed evs e (store r)
            ∧ Forall (fun ev => ∀ e', ev ≠ EvConsoleError e') evs)
  ∨ (∃ resp message ms,
       out r = Returned resp
       ∧ body resp = Matches message ms
       ∧ (http_status resp = 200 ∨ http_status resp = 429)
       ∧ Forall (fun ev => ∀ e', ev ≠ EvConsoleError e') (trace r)).

(** Where the explanation of a match of a response comes from: it is the
    fixed text of the demo mode, or the text of the completion that a call
    among the events [evs] returned, truncated at 200 code units. *)
Definition explained (env : Env) (evs : list event) (mr : match_result) : Prop :=
  explanation mr
  = lit "This is a demo result. Configure Groq API for real matching."
  ∨ ∃ model prompt content rest,
      EvChatCreate model prompt ∈ evs
      ∧ chat_create env model prompt = Fulfilled (Some content :: rest)
      ∧ truncated 200 (explanation mr) content.

(** The calls of the backend among the events of a request. *)
Definition is_backend_call (ev : event) : bool :=
  match ev with
  | EvChatCreate _ _ => true
  | _ => false
  end.

Definition backend_calls (evs : list event) : nat :=
  length (List.filter is_backend_call evs).

End Ending.

(** The cases of a request: what its body, the key, the import, the
    conversions and the backend give. *)
Ltac served_cases :=
  repeat first
    [ progress cbn
    | match goal with
      | |- context [match json ?r with _ => _ end] =>
          destruct (json r) as [[|?pd]|?e]
      | |- context [if has_key ?k then _ else _] => destruct (has_key k)
      | |- context [match import_groq ?env with _ => _ end] =>
          destruct (import_groq env)
      | |- context [analysis_prompt ?a ?b ?c ?d ?e ?f ?g] =>
          destruct (analysis_prompt a b c d e f g)
      | |- context [to_string ?v] => destruct (to_string v)
      | |- context [match chat_create ?env ?model ?p with _ => _ end] =>
          destruct (chat_create env model p) as [[|[?c|] ?rest]|?e]
      end ].

(** No event of a list is one of a kind: element by element. *)
Ltac quiet := repeat (apply Forall_cons_2; [discriminate|]); apply Forall_nil_2.

(** ** More requests *)

Module Scenario2.

(** A request without an address header, and one with an empty one. *)
Definition anonymous : Request :=
  {| x_forwarded_for := None;
     x_real_ip := None;
     json := Fulfilled (BodyFields Scenario.profile) |}.

Definition blank_header : Request :=
  {| x_forwarded_for := Some [];
     x_real_ip := None;
     json := Fulfilled (BodyFields Scenario.profile) |}.

(** A request whose body is JSON [null]. *)
Definition null_request : Request :=
  {| x_forwarded_for := Some Scenario.client;
     x_real_ip := None;
     json := Fulfilled BodyNull |}.

(** The request of the README with an x-real-ip header as well. *)
Definition behind_proxy : Request :=
  {| x_forwarded_for := Some Scenario.client;
     x_real_ip := Some (lit "10.0.0.7");
     json := Fulfilled (BodyFields Scenario.profile) |}.

(** Requests of two addresses, mixed, with the backend answering, failing
    and absent. *)
Definition mixed : list (Env * Request) :=
  [ (Scenario.env_ok, Scenario.request);
    (Scenario.env_failing Timeout, Scenario.request);
    (Scenario.env_ok, anonymous);
    (Scenario.env_demo, Scenario.request);
    (Scenario.env_answering [], Scenario.request);
    (Scenario.env_ok, Scenario.request) ].

(** A backend text of 250 code units. *)
Definition long_answer : jsstring := replicate 250 97%N.

(** Seven matches, of which the last has a status of its own. *)
Definition seven : Report.Results :=
  {| Report.message := JStr (lit "Analysis complete");
     Report.matches :=
       Some (replicate 6
               {| Report.nct_id := JStr (lit "NCT04743505");
                  Report.title := JStr (lit "Lung Cancer Study");
                  Report.status := JStr (lit "ELIGIBLE");
                  Report.explanation := JStr Scenario.answer |}
             ++ [ {| Report.nct_id := JStr (lit "NCT05745350");
                     Report.title := JUndefined;
                     Report.status := JStr (lit "PENDING_LAB_RESULTS");
                     Report.explanation := JUndefined |} ]) |}.

(** A patient as the form holds it: every field is a string. *)
Definition form_patient : PatientData :=
  {| age := JStr (lit "55");
     gender := JStr (lit "Male");
     conditions := JStr (lit "Type 2 Diabetes");
     medications := JStr [];
     biomarkers := JStr [] |}.

(** The cards of [seven] and of the report's input, for [form_patient]. *)
Definition cards_of (results : Report.Results) : list Card.Card :=
  match Card.cards form_patient results with
  | Returned (Some cs) => cs
  | _ => []
  end.

Definition seven_cards : list Card.Card := cards_of seven.
Definition three_cards : list Card.Card := cards_of Scenario.report_input.

(** Two matches, the second with a number for its status. *)
Definition numbered : Report.Results :=
  {| Report.message := JStr (lit "Analysis complete");
     Report.matches :=
       Some [ {| Report.nct_id := JStr (lit "NCT04743505");
                 Report.title := JStr (lit "Lung Cancer Study");
                 Report.status := JStr (lit "ELIGIBLE");
                 Report.explanation := JStr Scenario.answer |};
              {| Report.nct_id := JStr (lit "NCT05745350");
                 Report.title := JStr (lit "Diabetes Management Trial");
                 Report.status := int 1 I;
                 Report.explanation := JStr Scenario.answer |} ] |}.

(** A patient with biomarkers and without medications. *)
Definition half_profile : PatientData :=
  {| age := int 55 I;
     gender := JStr (lit "Male");
     conditions := JStr (lit "Type 2 Diabetes");
     medications := JNull;
     biomarkers := JStr (lit "HbA1c: 8%") |}.

(** The Python backend answering with some JSON, and being down. *)
Definition python_up : Proxy.World nat :=
  {| Proxy.python := fun _ =>
       Fulfilled {| Proxy.ok := true; Proxy.python_json := Fulfilled 7 |};
     Proxy.groq_env := Scenario.env_ok;
     Proxy.new_Groq_throws := fun k => negb (has_key k) |}.

Definition python_down : Proxy.World nat :=
  {| Proxy.python := fun _ => Rejected TypeError;
     Proxy.groq_env := Scenario.env_ok;
     Proxy.new_Groq_throws := fun k => negb (has_key k) |}.

Definition python_down_no_sdk : Proxy.World nat :=
  {| Proxy.python := fun _ => Rejected TypeError;
     Proxy.groq_env :=
       {| GROQ_API_KEY := None;
          import_groq := Rejected ImportError;
          chat_create := fun _ _ => Rejected (BackendError OtherFailure) |};
     Proxy.new_Groq_throws := fun k => negb (has_key k) |}.

End Scenario2.

(** * Properties *)

Arguments lit : simpl never.
Arguments analysis_prompt : simpl never.
Arguments demo_response : simpl never.
Arguments analysis_response : simpl never.
Arguments error_response : simpl never.
Arguments limit_response : simpl never.
Arguments header_or : simpl never.
Arguments has_key : simpl never.
Arguments to_string : simpl never.

(** ** The interpreter and the direct style agree *)

Module DirectFacts.

Lemma run_Route_POST (env : Env) (request : Request) (m : gmap jsstring nat) :
  run env (Route.POST request) m = Direct.Route_POST env request m.
Proof.
  unfold Route.POST, Direct.Route_POST, Direct.served.
  served_cases; reflexivity.
Qed.

Lemma run_RateLimited_POST (env : Env) (request : Request) (m : gmap jsstring nat) :
  run env (RateLimited.POST request) m = Direct.RateLimited_POST env request m.
Proof.
  unfold RateLimited.POST, Direct.RateLimited_POST, Direct.served. cbn.
  unfold RateLimited.count, RateLimited.ip_of.
  case_bool_decide; cbn; [reflexivity|].
  served_cases; reflexivity.
Qed.

End DirectFacts.

(** ** The quota, request after request *)

Module QuotaFacts.

Import RateLimited Sequential.

(** A served request leaves the map as it was or writes [count + 1] for its
    own address, and does the latter only below the limit. *)
Lemma store_cases (env : Env) (request : Request) (m : gmap jsstring nat) :
  let ip := ip_of request in
  store (run env (POST request) m) = m
  ∨ (count m ip < MAX_REQUESTS_PER_IP
     ∧ store (run env (POST request) m) = <[ip := count m ip + 1]> m).
Proof.
  intros ip. rewrite DirectFacts.run_RateLimited_POST.
  unfold Direct.RateLimited_POST, Direct.served. fold ip.
  case_bool_decide as Hlim; [by left|].
  served_cases; solve [by left | right; split; [lia | reflexivity]].
Qed.

Lemma count_insert_same (m : gmap jsstring nat) (ip : jsstring) (n : nat) :
  count (<[ip := n]> m) ip = n.
Proof. unfold count. by rewrite lookup_insert_eq. Qed.

Lemma count_insert_other (m : gmap jsstring nat) (ip ip' : jsstring) (n : nat) :
  ip ≠ ip' -> count (<[ip := n]> m) ip' = count m ip'.
Proof. intros Hne. unfold count. by rewrite lookup_insert_ne. Qed.

(** Served one after the other, requests never lower a count. *)
Lemma count_mono (env : Env) (request : Request) (m : gmap jsstring nat)
    (ip' : jsstring) :
  count m ip' ≤ count (store (run env (POST request) m)) ip'.
Proof.
  destruct (store_cases env request m) as [-> | [_ ->]]; [done|].
  destruct (decide (ip_of request = ip')) as [<- | Hne].
  - rewrite count_insert_same. lia.
  - by rewrite count_insert_other.
Qed.

Lemma serve_all_cons (env : Env) (request : Request)
    (rest : list (Env * Request)) (m : gmap jsstring nat) :
  serve_all ((env, request) :: rest) m
  = (out (run env (POST request) m)
       :: (serve_all rest (store (run env (POST request) m))).1,
     (serve_all rest (store (run env (POST request) m))).2).
Proof. cbn [serve_all]. by destruct (serve_all rest _). Qed.

Lemma serve_all_app (reqs later : list (Env * Request)) (m : gmap jsstring nat) :
  (serve_all (reqs ++ later) m).2 = (serve_all later (serve_all reqs m).2).2.
Proof.
  revert m. induction reqs as [|[env request] reqs IH]; intros m; [done|].
  rewrite <- app_comm_cons, !serve_all_cons. cbn [snd]. apply IH.
Qed.

Lemma serve_all_count_mono (reqs : list (Env * Request)) (m : gmap jsstring nat)
    (ip : jsstring) :
  count m ip ≤ count (serve_all reqs m).2 ip.
Proof.
  revert m. induction reqs as [|[env request] reqs IH]; intros m; [done|].
  rewrite serve_all_cons. cbn [snd].
  etrans; [apply (count_mono env request m ip) | apply IH].
Qed.

(** At the limit the handler answers 429 and does nothing else. *)
Lemma denied (env : Env) (request : Request) (m : gmap jsstring nat) :
  MAX_REQUESTS_PER_IP ≤ count m (ip_of request) ->
  run env (POST request) m
  = {| out := Returned limit_response; store := m; trace := [] |}.
Proof.
  intros Hlim. rewrite DirectFacts.run_RateLimited_POST.
  unfold Direct.RateLimited_POST. by rewrite bool_decide_true.
Qed.

(** Below the limit, a request that succeeds is answered with the analysis
    and counted. *)
Lemma served_below_limit (env : Env) (request : Request) (m : gmap jsstring nat) :
  count m (ip_of request) < MAX_REQUESTS_PER_IP ->
  succeeds env request = true ->
  ∃ c, out (run env (POST request) m) = Returned (analysis_response c)
       ∧ store (run env (POST request) m)
         = <[ip_of request := count m (ip_of request) + 1]> m.
Proof.
  intros Hlim Hok. rewrite DirectFacts.run_RateLimited_POST.
  unfold Direct.RateLimited_POST, Direct.served.
  rewrite bool_decide_false by lia.
  unfold succeeds, backend_returns in Hok.
  destruct (json request) as [[|pd]|e]; try done.
  destruct (has_key (GROQ_API_KEY env)); try done.
  destruct (import_groq env); try done.
  destruct (analysis_prompt _ _ _ _ _ _ _) as [prompt|?]; try done.
  destruct (chat_create env _ _) as [[|[c|] rest]|e]; try done.
  by exists c.
Qed.

(** The first requests of an address, as long as the limit is not reached. *)
Lemma serve_all_below_limit (ip : jsstring) (reqs : list (Env * Request))
    (m : gmap jsstring nat) :
  Forall (fun er => ip_of er.2 = ip ∧ succeeds er.1 er.2 = true) reqs ->
  count m ip + length reqs ≤ MAX_REQUESTS_PER_IP ->
  Forall (fun o => ∃ c, o = Returned (analysis_response c)) (serve_all reqs m).1
  ∧ count (serve_all reqs m).2 ip = count m ip + length reqs.
Proof.
  revert m. induction reqs as [|[env request] reqs IH]; intros m Hall Hlen.
  - cbn. split; [constructor | lia].
  - apply Forall_cons in Hall as [[Hip Hok] Hall].
    cbn [fst snd length] in Hip, Hok, Hlen.
    subst ip. rewrite serve_all_cons. cbn [fst snd].
    destruct (served_below_limit env request m) as (c & Hout & Hst); [lia | done |].
    rewrite Hout, Hst.
    destruct (IH (<[ip_of request := count m (ip_of request) + 1]> m)) as [IH1 IH2];
      [done | rewrite count_insert_same; lia |].
    split; [constructor; eauto|].
    rewrite IH2, count_insert_same. cbn [length]. lia.
Qed.

End QuotaFacts.

(** ** Admission control *)

(** C4: whenever the limiter denies a request (the count of its address has
    reached [MAX_REQUESTS_PER_IP]), the handler awaits nothing: the body is
    not read, the SDK is not imported, the backend is not called and the map
    is not written.  The response has the shape of a success, a message and
    an empty list of matches, with status 429. *)
Theorem denied_does_no_work (env : Env) (request : Request) (m : gmap jsstring nat) :
  RateLimited.MAX_REQUESTS_PER_IP ≤ RateLimited.count m (RateLimited.ip_of request) ->
  let r := run env (RateLimited.POST request) m in
  trace r = []
  ∧ store r = m
  ∧ ∃ resp message,
      out r = Returned resp
      ∧ body resp = Matches message []
      ∧ message ≠ []
      ∧ http_status resp = 429.
Proof.
  intros Hlim r. subst r. rewrite (QuotaFacts.denied env request m Hlim).
  cbn [trace store out]. split; [done|]. split; [done|].
  exists limit_response. eexists. split; [done|].
  split; [reflexivity|]. split; [|reflexivity]. discriminate.
Qed.

Lemma denied_does_no_work_witness :
  RateLimited.MAX_REQUESTS_PER_IP
    ≤ RateLimited.count {[Scenario.client := 10]} (RateLimited.ip_of Scenario.request)
  ∧ trace (run Scenario.env_ok (RateLimited.POST Scenario.request)
             {[Scenario.client := 10]}) = [].
Proof.
  assert (H : RateLimited.MAX_REQUESTS_PER_IP
                ≤ RateLimited.count {[Scenario.client := 10]}
                    (RateLimited.ip_of Scenario.request))
    by (vm_compute; lia).
  split; [exact H|].
  exact (proj1 (denied_does_no_work Scenario.env_ok Scenario.request _ H)).
Defined.

(** A 429 is answered by the limiter only. *)
Lemma only_the_limiter_answers_429 (env : Env) (request : Request)
    (m : gmap jsstring nat) (resp : response) :
  out (run env (RateLimited.POST request) m) = Returned resp ->
  http_status resp = 429 ->
  RateLimited.MAX_REQUESTS_PER_IP ≤ RateLimited.count m (RateLimited.ip_of request).
Proof.
  rewrite DirectFacts.run_RateLimited_POST.
  unfold Direct.RateLimited_POST, Direct.served.
  case_bool_decide as Hlim; [done|].
  served_cases; intros [= <-]; discriminate.
Qed.

(** C3, as the code has it: from a count of zero, ten requests of one
    address that complete are all answered with the analysis; from then on
    every request of that address is answered 429 with no matches and
    changes nothing, whatever requests were served in between.  The map is
    never reset: the handler keeps no window. *)
Theorem ten_served_then_denied (ip : jsstring) (reqs : list (Env * Request))
    (m : gmap jsstring nat) :
  RateLimited.count m ip = 0 ->
  length reqs = 10 ->
  Forall (fun er => RateLimited.ip_of er.2 = ip
                    ∧ Sequential.succeeds er.1 er.2 = true) reqs ->
  Forall (fun o => ∃ c, o = Returned (analysis_response c))
    (Sequential.serve_all reqs m).1
  ∧ matches_of limit_response = []
  ∧ http_status limit_response = 429
  ∧ ∀ (later : list (Env * Request)) (env : Env) (request : Request),
      RateLimited.ip_of request = ip ->
      run env (RateLimited.POST request) (Sequential.serve_all (reqs ++ later) m).2
      = {| out := Returned limit_response;
           store := (Sequential.serve_all (reqs ++ later) m).2;
           trace := [] |}.
Proof.
  intros Hzero Hlen Hall.
  destruct (QuotaFacts.serve_all_below_limit ip reqs m Hall) as [Hserved Hcnt].
  { rewrite Hzero, Hlen. reflexivity. }
  split; [exact Hserved|]. split; [reflexivity|]. split; [reflexivity|].
  intros later env request Hip. apply QuotaFacts.denied.
  rewrite Hip, QuotaFacts.serve_all_app.
  etrans; [|apply QuotaFacts.serve_all_count_mono].
  rewrite Hcnt, Hzero, Hlen. reflexivity.
Qed.

Lemma ten_served_then_denied_witness :
  RateLimited.count (∅ : gmap jsstring nat) Scenario.client = 0
  ∧ length Scenario.ten_in_turn = 10
  ∧ Forall (fun o => ∃ c, o = Returned (analysis_response c))
      (Sequential.serve_all Scenario.ten_in_turn ∅).1.
Proof.
  assert (H0 : RateLimited.count (∅ : gmap jsstring nat) Scenario.client = 0)
    by reflexivity.
  assert (H1 : length Scenario.ten_in_turn = 10) by reflexivity.
  assert (H2 : Forall (fun er => RateLimited.ip_of er.2 = Scenario.client
                                 ∧ Sequential.succeeds er.1 er.2 = true)
                 Scenario.ten_in_turn)
    by (repeat constructor).
  split; [exact H0|]. split; [exact H1|].
  exact (proj1 (ten_served_then_denied Scenario.client Scenario.ten_in_turn ∅
                  H0 H1 H2)).
Defined.

(** C3 as stated fails: the count of the client is never reset.  After ten
    served requests no later request, however many are served in between,
    finds the count back at zero or is answered with anything but the
    429. *)
Lemma count_is_never_reset :
  ¬ ∃ (later : list (Env * Request)) (env : Env) (request : Request),
      RateLimited.ip_of request = Scenario.client
      ∧ (RateLimited.count
           (Sequential.serve_all (Scenario.ten_in_turn ++ later) ∅).2
           Scenario.client = 0
         ∨ out (run env (RateLimited.POST request)
                  (Sequential.serve_all (Scenario.ten_in_turn ++ later) ∅).2)
           ≠ Returned limit_response).
Proof.
  intros (later & env & request & Hip & Hbad).
  assert (Hten : RateLimited.count
                   (Sequential.serve_all Scenario.ten_in_turn ∅).2
                   Scenario.client = 10) by (vm_compute; reflexivity).
  assert (Hge : RateLimited.MAX_REQUESTS_PER_IP
                ≤ RateLimited.count
                    (Sequential.serve_all (Scenario.ten_in_turn ++ later) ∅).2
                    Scenario.client).
  { rewrite QuotaFacts.serve_all_app.
    etrans; [|apply QuotaFacts.serve_all_count_mono].
    rewrite Hten. reflexivity. }
  destruct Hbad as [Hzero | Hout].
  - rewrite Hzero in Hge. unfold RateLimited.MAX_REQUESTS_PER_IP in Hge. lia.
  - apply Hout. rewrite QuotaFacts.denied; [done|]. by rewrite Hip.
Qed.

(** C1: the test of the count and its increment are not one step.  Eleven
    requests of one address that are in flight together all pass the test
    before any of them writes the map; all eleven are answered with the
    analysis, one more than [MAX_REQUESTS_PER_IP], and each writes the
    count it read plus one, so the map ends with a count of 1. *)
Theorem eleven_served_in_flight :
  schedule Scenario.round_robin (Scenario.eleven, ∅)
  = (replicate 11 (Done (Returned (analysis_response Scenario.answer))),
     {[Scenario.client := 1]})
  ∧ RateLimited.MAX_REQUESTS_PER_IP < length Scenario.eleven.
Proof. split; [vm_compute; reflexivity | vm_compute; lia]. Qed.

(** Served one after the other, the same eleven requests are ten analyses
    and one 429. *)
Example eleven_in_turn_ten_served :
  Sequential.serve_all Scenario.eleven_in_turn ∅
  = (replicate 10 (Returned (analysis_response Scenario.answer))
       ++ [Returned limit_response],
     {[Scenario.client := 10]}).
Proof. vm_compute; reflexivity. Qed.

(** ** What a handler can answer *)

Module AnswerFacts.

(** The handler of route.js always returns, with one of three bodies. *)
Lemma Route_answers (env : Env) (request : Request) (m : gmap jsstring nat) :
  ∃ resp, out (run env (Route.POST request) m) = Returned resp
          ∧ (resp = error_response
             ∨ (∃ v, resp = demo_response v)
             ∨ (∃ c, resp = analysis_response c)).
Proof.
  rewrite DirectFacts.run_Route_POST.
  unfold Direct.Route_POST, Direct.served.
  served_cases; eauto 6.
Qed.

(** The limited handler has the 429 as a fourth. *)
Lemma RateLimited_answers (env : Env) (request : Request) (m : gmap jsstring nat) :
  ∃ resp, out (run env (RateLimited.POST request) m) = Returned resp
          ∧ (resp = limit_response
             ∨ resp = error_response
             ∨ (∃ v, resp = demo_response v)
             ∨ (∃ c, resp = analysis_response c)).
Proof.
  rewrite DirectFacts.run_RateLimited_POST.
  unfold Direct.RateLimited_POST, Direct.served.
  case_bool_decide; [eauto 6|].
  served_cases; eauto 7.
Qed.

Lemma length_slice0 (n : nat) (s : jsstring) : length (slice0 n s) ≤ n.
Proof. unfold slice0. rewrite length_firstn. lia. Qed.


(** The explanation of an analysis is at most 200 code units long. *)
Lemma analysis_explanation (c : jsstring) :
  Forall (fun mr => length (explanation mr) ≤ 200) (matches_of (analysis_response c)).
Proof.
  unfold analysis_response, matches_of. cbn.
  constructor; [apply length_slice0 | constructor].
Qed.

Lemma explanations_bounded (resp : response) :
  resp = limit_response
  ∨ resp = error_response
  ∨ (∃ v, resp = demo_response v)
  ∨ (∃ c, resp = analysis_response c) ->
  Forall (fun mr => length (explanation mr) ≤ 300) (matches_of resp).
Proof.
  intros [-> | [-> | [[v ->] | [c ->]]]].
  - constructor.
  - constructor.
  - unfold demo_response, matches_of. cbn.
    constructor; [vm_compute; lia | constructor].
  - eapply Forall_impl; [apply analysis_explanation|]. cbn. intros; lia.
Qed.



(** At most one match, the fixed one of the analysis or the placeholder. *)
Lemma one_fixed_match (resp : response) :
  resp = limit_response
  ∨ resp = error_response
  ∨ (∃ v, resp = demo_response v)
  ∨ (∃ c, resp = analysis_response c) ->
  length (matches_of resp) ≤ 1
  ∧ Forall (fun mr => nct_id mr = lit "NCT04743505" ∨ nct_id mr = lit "NCT-DEMO-001")
      (matches_of resp).
Proof.
  unfold limit_response, error_response, demo_response, analysis_response,
    matches_of.
  intros [-> | [-> | [[v ->] | [c ->]]]]; cbn; split;
    try lia; try constructor; auto.
Qed.

End AnswerFacts.

(** ** What is counted *)

(** The map after a request, by whether the request is counted. *)
Lemma store_by_counted (env : Env) (request : Request) (m : gmap jsstring nat) :
  store (run env (RateLimited.POST request) m)
  = if Sequential.counted env request m
    then <[RateLimited.ip_of request
             := RateLimited.count m (RateLimited.ip_of request) + 1]> m
    else m.
Proof.
  rewrite DirectFacts.run_RateLimited_POST.
  unfold Direct.RateLimited_POST, Direct.served,
    Sequential.counted, Sequential.backend_returns.
  case_bool_decide as Hlim.
  { rewrite bool_decide_false by lia. reflexivity. }
  rewrite bool_decide_true by lia. cbn [andb].
  served_cases; reflexivity.
Qed.

(** Demo mode counts nothing. *)
Lemma demo_mode_is_not_counted (env : Env) (request : Request)
    (m : gmap jsstring nat) :
  has_key (GROQ_API_KEY env) = false ->
  store (run env (RateLimited.POST request) m) = m.
Proof.
  intros Hkey. rewrite store_by_counted.
  unfold Sequential.counted, Sequential.backend_returns. rewrite Hkey.
  destruct (json request) as [[|pd]|e]; cbn; by rewrite andb_false_r.
Qed.

(** A rejected backend call counts nothing. *)
Lemma failed_call_is_not_counted (env : Env) (request : Request)
    (m : gmap jsstring nat) (e : js_error) :
  (∀ model prompt, chat_create env model prompt = Rejected e) ->
  store (run env (RateLimited.POST request) m) = m.
Proof.
  intros Hdown. rewrite store_by_counted.
  unfold Sequential.counted, Sequential.backend_returns.
  destruct (json request) as [[|pd]|e']; cbn;
    destruct (has_key (GROQ_API_KEY env)); try destruct (import_groq env);
    try destruct (analysis_prompt _ _ _ _ _ _ _);
    rewrite ?Hdown; cbn; by rewrite andb_false_r.
Qed.

(** C10, as the code has it: the map changes exactly when the request
    passed the limit and the backend call returned; the count of its
    address is then the count read at the start plus one.  A request
    answered 429, served in demo mode, or failing before the backend
    returned leaves the map as it was.  The write precedes the reading of
    the completion, so a request whose completion has no text ends in the
    [catch] block with its count already written. *)
Theorem counted_when_backend_returned (env : Env) (request : Request)
    (m : gmap jsstring nat) :
  store (run env (RateLimited.POST request) m)
  = if Sequential.counted env request m
    then <[RateLimited.ip_of request
             := RateLimited.count m (RateLimited.ip_of request) + 1]> m
    else m.
Proof. apply store_by_counted. Qed.

(** C10 as stated fails: the backend returns a completion without choices;
    the request ends in the [catch] block, answered 500, and the count of
    the client has gone from nothing to 1. *)
Lemma failed_request_is_counted :
  out (run (Scenario.env_answering []) (RateLimited.POST Scenario.request) ∅)
  = Returned error_response
  ∧ store (run (Scenario.env_answering []) (RateLimited.POST Scenario.request) ∅)
    = {[Scenario.client := 1]}
  ∧ store (run (Scenario.env_answering []) (RateLimited.POST Scenario.request) ∅)
    ≠ ∅.
Proof.
  assert (Hst : store (run (Scenario.env_answering [])
                         (RateLimited.POST Scenario.request) ∅)
                = {[Scenario.client := 1]}) by (vm_compute; reflexivity).
  split; [vm_compute; reflexivity|]. split; [exact Hst|].
  rewrite Hst. apply insert_non_empty.
Qed.

(** ** Failures of the backend *)

(** C2, as the code has it: the handlers have no boundary around the
    backend call other than their one [try]/[catch].  When the awaited
    completion has no text (the call timed out, was refused by the provider,
    failed on the network, or returned no first choice or a [null]
    content), the whole request is answered with the error object
    [{ error: 'Failed to process request' }] and status 500, which carries
    no match. *)
Theorem backend_failure_fails_the_request (env : Env) (request : Request)
    (m : gmap jsstring nat) (pd : PatientData) :
  json request = Fulfilled (BodyFields pd) ->
  has_key (GROQ_API_KEY env) = true ->
  import_groq env = Fulfilled tt ->
  (∀ model prompt, no_text (chat_create env model prompt) = true) ->
  RateLimited.count m (RateLimited.ip_of request) < RateLimited.MAX_REQUESTS_PER_IP ->
  out (run env (Route.POST request) m) = Returned error_response
  ∧ out (run env (RateLimited.POST request) m) = Returned error_response
  ∧ body error_response = Failure (lit "Failed to process request")
  ∧ http_status error_response = 500
  ∧ matches_of error_response = [].
Proof.
  intros Hjson Hkey Himp Hdown Hlim.
  rewrite DirectFacts.run_Route_POST, DirectFacts.run_RateLimited_POST.
  unfold Direct.Route_POST, Direct.RateLimited_POST, Direct.served.
  rewrite bool_decide_false by lia. rewrite Hjson, Hkey, Himp.
  split; [|split; [|done]].
  - destruct (analysis_prompt _ _ _ _ _ _ _) as [prompt|?]; [|done].
    pose proof (Hdown (lit "llama-3.3-70b-versatile") prompt) as H.
    cbn. destruct (chat_create env _ _) as [[|[c|] rest]|e]; done.
  - destruct (analysis_prompt _ _ _ _ _ _ _) as [prompt|?]; [|done].
    pose proof (Hdown (lit "llama-3.2-3b-preview") prompt) as H.
    cbn. destruct (chat_create env _ _) as [[|[c|] rest]|e]; done.
Qed.

Lemma backend_failure_fails_the_request_witness :
  no_text (chat_create (Scenario.env_failing NetworkError) [] []) = true
  ∧ out (run (Scenario.env_failing NetworkError) (Route.POST Scenario.request) ∅)
    = Returned error_response.
Proof.
  split; [reflexivity|].
  refine (proj1 (backend_failure_fails_the_request
                   (Scenario.env_failing NetworkError) Scenario.request ∅
                   Scenario.profile _ _ _ _ _)).
  - reflexivity.
  - reflexivity.
  - reflexivity.
  - intros model prompt. reflexivity.
  - vm_compute. lia.
Defined.

(** C2 as stated fails: the backend call times out and the request is
    answered with the 500 error object, not with matches of status
    NEEDS_REVIEW. *)
Lemma timeout_fails_the_request :
  out (run (Scenario.env_failing Timeout) (Route.POST Scenario.request) ∅)
  = Returned error_response
  ∧ http_status error_response = 500
  ∧ ¬ ∃ mr, mr ∈ matches_of error_response ∧ status mr = lit "NEEDS_REVIEW".
Proof.
  split; [vm_compute; reflexivity|]. split; [reflexivity|].
  intros (mr & Hin & _). cbn in Hin. by apply elem_of_nil in Hin.
Qed.

(** Whatever text the backend returns, the match is ELIGIBLE. *)
Lemma any_text_is_eligible (c : jsstring) :
  Forall (fun mr => status mr = lit "ELIGIBLE") (matches_of (analysis_response c)).
Proof. unfold analysis_response, matches_of. cbn. by repeat constructor. Qed.

(** ** The profile *)

(** C5, as the code has it: the handlers do not look at the profile before
    they use it; neither the conditions nor the age is tested.  For a
    request whose body parses to a value other than [null], the prompt is
    built from the five fields as they are, whatever they hold, as soon as
    each of them can be converted to a text.  With the credential set and
    the SDK imported (and, in the limited handler, a count below the
    limit) that prompt is sent to the backend, and when the backend
    answers with a completion that has a text the response is the
    analysis, of status 200. *)
Theorem profile_is_not_validated (env : Env) (request : Request)
    (m : gmap jsstring nat) (pd : PatientData) (prompt prompt' c : jsstring)
    (rest : list (option jsstring)) :
  json request = Fulfilled (BodyFields pd) ->
  analysis_prompt " " "    " (age pd) (gender pd) (conditions pd)
    (medications pd) (biomarkers pd) = Returned prompt ->
  analysis_prompt "" "" (age pd) (gender pd) (conditions pd)
    (medications pd) (biomarkers pd) = Returned prompt' ->
  has_key (GROQ_API_KEY env) = true ->
  import_groq env = Fulfilled tt ->
  (∀ model sent, chat_create env model sent = Fulfilled (Some c :: rest)) ->
  RateLimited.count m (RateLimited.ip_of request) < RateLimited.MAX_REQUESTS_PER_IP ->
  run env (Route.POST request) m
  = {| out := Returned (analysis_response c);
       store := m;
       trace := [EvRequestJson; EvImportGroq;
                 EvChatCreate (lit "llama-3.3-70b-versatile") prompt] |}
  ∧ out (run env (RateLimited.POST request) m) = Returned (analysis_response c)
  ∧ trace (run env (RateLimited.POST request) m)
    = [EvRequestJson; EvImportGroq;
       EvChatCreate (lit "llama-3.2-3b-preview") prompt']
  ∧ http_status (analysis_response c) = 200.
Proof.
  intros Hjson Hprompt Hprompt' Hkey Himp Hchat Hlim.
  rewrite DirectFacts.run_Route_POST, DirectFacts.run_RateLimited_POST.
  unfold Direct.Route_POST, Direct.RateLimited_POST, Direct.served.
  rewrite bool_decide_false by lia.
  rewrite Hjson, Hkey, Himp, Hprompt, Hprompt'. cbn. rewrite !Hchat. done.
Qed.

Lemma profile_is_not_validated_witness :
  conditions Scenario.bad_profile = JUndefined
  ∧ age Scenario.bad_profile = int 5 I
  ∧ out (run Scenario.env_ok (RateLimited.POST Scenario.bad_request) ∅)
    = Returned (analysis_response Scenario.answer).
Proof.
  split; [reflexivity|]. split; [reflexivity|].
  refine (proj1 (proj2 (profile_is_not_validated
                          Scenario.env_ok Scenario.bad_request ∅
                          Scenario.bad_profile
                          (prompt_text " " "    " (lit "5") (lit "Male")
                             (lit "undefined") (lit "None") (lit "None"))
                          (prompt_text "" "" (lit "5") (lit "Male")
                             (lit "undefined") (lit "None") (lit "None"))
                          Scenario.answer [] _ _ _ _ _ _ _))).
  - reflexivity.
  - reflexivity.
  - reflexivity.
  - reflexivity.
  - reflexivity.
  - intros model sent. reflexivity.
  - vm_compute. lia.
Defined.

(** C5 as stated fails: a profile without conditions and with an age of 5
    is not rejected; the backend is called with the prompt built from it,
    in which the conditions read undefined, and the request is answered
    200 with the analysis. *)
Lemma bad_profile_reaches_the_backend :
  run Scenario.env_ok (Route.POST Scenario.bad_request) ∅
  = {| out := Returned (analysis_response Scenario.answer);
       store := ∅;
       trace := [EvRequestJson; EvImportGroq;
                 EvChatCreate (lit "llama-3.3-70b-versatile")
                   (prompt_text " " "    " (lit "5") (lit "Male")
                      (lit "undefined") (lit "None") (lit "None"))] |}
  ∧ http_status (analysis_response Scenario.answer) = 200.
Proof. split; [vm_compute; reflexivity | reflexivity]. Qed.

(** A field that cannot be converted to a text ends the request in the
    [catch] block before the backend is called. *)
Lemma unconvertible_field_fails (env : Env) (request : Request)
    (m : gmap jsstring nat) (pd : PatientData) (e : js_error) :
  json request = Fulfilled (BodyFields pd) ->
  has_key (GROQ_API_KEY env) = true ->
  analysis_prompt " " "    " (age pd) (gender pd) (conditions pd)
    (medications pd) (biomarkers pd) = Uncaught e ->
  run env (Route.POST request) m
  = match import_groq env with
    | Fulfilled _ => Direct.failed [EvRequestJson; EvImportGroq] e m
    | Rejected e' => Direct.failed [EvRequestJson; EvImportGroq] e' m
    end.
Proof.
  intros Hjson Hkey Hprompt. rewrite DirectFacts.run_Route_POST.
  unfold Direct.Route_POST, Direct.served.
  rewrite Hjson, Hkey, Hprompt. by destruct (import_groq env).
Qed.

(** ** Demo mode *)

(** C6, as the code has it: without the credential, a request whose body
    parses to a value other than [null] and whose conditions can be
    converted to a text (and which the limited handler does not deny) is
    answered from the demo branch: the backend is not called, the message
    names the demo mode and the one match is the placeholder, of status
    NEEDS_REVIEW, whose title ends with that text. *)
Theorem demo_mode_answers_the_placeholder (env : Env) (request : Request)
    (m : gmap jsstring nat) (pd : PatientData) (shown : jsstring) :
  has_key (GROQ_API_KEY env) = false ->
  json request = Fulfilled (BodyFields pd) ->
  to_string (conditions pd) = Returned shown ->
  RateLimited.count m (RateLimited.ip_of request) < RateLimited.MAX_REQUESTS_PER_IP ->
  run env (Route.POST request) m
  = {| out := Returned (demo_response shown);
       store := m;
       trace := [EvRequestJson] |}
  ∧ run env (RateLimited.POST request) m
    = {| out := Returned (demo_response shown);
         store := m;
         trace := [EvRequestJson] |}
  ∧ http_status (demo_response shown) = 200
  ∧ ∃ placeholder,
      body (demo_response shown)
      = Matches (lit "Running in demo mode (no API key configured)") [placeholder]
      ∧ nct_id placeholder = lit "NCT-DEMO-001"
      ∧ title placeholder = lit "Demo Trial for " ++ shown
      ∧ status placeholder = lit "NEEDS_REVIEW".
Proof.
  intros Hkey Hjson Hshown Hlim.
  rewrite DirectFacts.run_Route_POST, DirectFacts.run_RateLimited_POST.
  unfold Direct.Route_POST, Direct.RateLimited_POST, Direct.served.
  rewrite bool_decide_false by lia.
  rewrite Hjson, Hkey, Hshown. repeat split. eexists. repeat split.
Qed.

Lemma demo_mode_answers_the_placeholder_witness :
  has_key (GROQ_API_KEY Scenario.env_demo) = false
  ∧ run Scenario.env_demo (Route.POST Scenario.request) ∅
    = {| out := Returned (demo_response (lit "Non-Small Cell Lung Cancer"));
         store := ∅;
         trace := [EvRequestJson] |}.
Proof.
  split; [reflexivity|].
  refine (proj1 (demo_mode_answers_the_placeholder
                   Scenario.env_demo Scenario.request ∅ Scenario.profile
                   (lit "Non-Small Cell Lung Cancer") _ _ _ _)).
  - reflexivity.
  - reflexivity.
  - reflexivity.
  - vm_compute. lia.
Defined.

(** Conditions that cannot be converted to a text end the request of the
    demo mode in the [catch] block. *)
Lemma demo_mode_unconvertible_conditions (env : Env) (request : Request)
    (m : gmap jsstring nat) (pd : PatientData) (e : js_error) :
  has_key (GROQ_API_KEY env) = false ->
  json request = Fulfilled (BodyFields pd) ->
  to_string (conditions pd) = Uncaught e ->
  run env (Route.POST request) m = Direct.failed [EvRequestJson] e m.
Proof.
  intros Hkey Hjson Hshown. rewrite DirectFacts.run_Route_POST.
  unfold Direct.Route_POST, Direct.served. by rewrite Hjson, Hkey, Hshown.
Qed.

(** C6 as stated fails: without the credential, a request whose body is not
    JSON is answered with the 500 error object, which carries no match. *)
Lemma demo_mode_malformed_body :
  has_key (GROQ_API_KEY Scenario.env_demo) = false
  ∧ out (run Scenario.env_demo (Route.POST Scenario.malformed_request) ∅)
    = Returned error_response
  ∧ http_status error_response = 500
  ∧ matches_of error_response = [].
Proof. repeat split; vm_compute; reflexivity. Qed.

(** ** The matches of a response *)

(** C7, as the code has it: the handlers retrieve nothing and have no K.
    The sample trials only go into the prompt; a response carries at most
    one match, the fixed one of trial NCT04743505 or the placeholder of the
    demo mode, whatever the backend returned. *)
Theorem at_most_one_fixed_match (env : Env) (request : Request)
    (m : gmap jsstring nat) :
  match out (run env (Route.POST request) m),
        out (run env (RateLimited.POST request) m) with
  | Returned resp, Returned resp' =>
      length (matches_of resp) ≤ 1
      ∧ Forall (fun mr => nct_id mr = lit "NCT04743505"
                          ∨ nct_id mr = lit "NCT-DEMO-001") (matches_of resp)
      ∧ length (matches_of resp') ≤ 1
      ∧ Forall (fun mr => nct_id mr = lit "NCT04743505"
                          ∨ nct_id mr = lit "NCT-DEMO-001") (matches_of resp')
  | _, _ => False
  end.
Proof.
  destruct (AnswerFacts.Route_answers env request m) as (resp & -> & Hr).
  destruct (AnswerFacts.RateLimited_answers env request m) as (resp' & -> & Hr').
  destruct (AnswerFacts.one_fixed_match resp) as [H1 H2]; [by right|].
  destruct (AnswerFacts.one_fixed_match resp' Hr') as [H3 H4].
  done.
Qed.

(** C7 as stated fails: the sample has two trials and the backend answers,
    yet the successful response has one match and the second trial,
    NCT05745350, is not in it. *)
Lemma second_trial_is_not_returned :
  ∃ resp,
    out (run Scenario.env_ok (Route.POST Scenario.request) ∅) = Returned resp
    ∧ http_status resp = 200
    ∧ length SAMPLE_TRIALS = 2
    ∧ length (matches_of resp) = 1
    ∧ ¬ ∃ mr, mr ∈ matches_of resp ∧ nct_id mr = lit "NCT05745350".
Proof.
  exists (analysis_response Scenario.answer).
  split; [vm_compute; reflexivity|]. split; [reflexivity|].
  split; [reflexivity|]. split; [reflexivity|].
  intros (mr & Hin & Hid). unfold analysis_response, matches_of in Hin.
  cbn in Hin. apply list_elem_of_singleton in Hin. subst mr.
  vm_compute in Hid. discriminate.
Qed.


(** ** The summary of the report *)

Module ReportFacts.

Import Report.

Lemma count_status_cons (message : jsval) (x : Match) (ms : list Match) (s : string) :
  count_status {| message := message; matches := Some (x :: ms) |} s
  = (if strict_eq_lit (status x) s then 1 else 0)
    + count_status {| message := message; matches := Some ms |} s.
Proof.
  unfold count_status. cbn. by destruct (strict_eq_lit (status x) s).
Qed.

(** A status of the data model is counted once. *)
Lemma counted_once (x : Match) :
  is_match_result x ->
  (if strict_eq_lit (status x) "ELIGIBLE" then 1 else 0)
  + (if strict_eq_lit (status x) "NOT_ELIGIBLE" then 1 else 0)
  + (if strict_eq_lit (status x) "NEEDS_REVIEW" then 1 else 0) = 1.
Proof. intros [-> | [-> | ->]]; vm_compute; reflexivity. Qed.

(** Any other status is counted in the total only. *)
Lemma counted_at_most_once (x : Match) :
  (if strict_eq_lit (status x) "ELIGIBLE" then 1 else 0)
  + (if strict_eq_lit (status x) "NOT_ELIGIBLE" then 1 else 0)
  + (if strict_eq_lit (status x) "NEEDS_REVIEW" then 1 else 0) ≤ 1.
Proof.
  unfold strict_eq_lit. repeat case_bool_decide; try lia;
    match goal with
    | H1 : status x = _, H2 : status x = _ |- _ =>
        rewrite H1 in H2; vm_compute in H2; discriminate
    end.
Qed.

Lemma sum_of_counts (message : jsval) (ms : list Match) :
  Forall is_match_result ms ->
  let results := {| message := message; matches := Some ms |} in
  eligibleCount results + notEligibleCount results + reviewCount results
  = totalCount results.
Proof.
  unfold eligibleCount, notEligibleCount, reviewCount.
  induction 1 as [|x ms Hx Hms IH]; [reflexivity|].
  cbn zeta in *. rewrite !count_status_cons.
  pose proof (counted_once x Hx). unfold totalCount in *. cbn in *. lia.
Qed.

Lemma sum_of_counts_le (results : Results) :
  eligibleCount results + notEligibleCount results + reviewCount results
  ≤ totalCount results.
Proof.
  destruct results as [message [ms|]]; [|cbn; lia].
  unfold eligibleCount, notEligibleCount, reviewCount.
  induction ms as [|x ms IH]; [cbn; lia|].
  rewrite !count_status_cons.
  pose proof (counted_at_most_once x). unfold totalCount in *. cbn in *. lia.
Qed.

(** The matches of a handler, as the report receives them, are MatchResults. *)
Lemma handler_matches (resp : response) (ms : list Match) :
  resp = limit_response
  ∨ resp = error_response
  ∨ (∃ v, resp = demo_response v)
  ∨ (∃ c, resp = analysis_response c) ->
  matches (of_response resp) = Some ms ->
  Forall is_match_result ms.
Proof.
  intros [-> | [-> | [[v ->] | [c ->]]]];
    unfold limit_response, error_response, demo_response, analysis_response,
      of_response, is_match_result;
    cbn; intros [= <-];
    repeat (apply Forall_cons_2; [cbn; auto|]); apply Forall_nil_2.
Qed.

End ReportFacts.

(** C9: for the matches of a response, each of them a MatchResult, that is
    of status ELIGIBLE, NOT_ELIGIBLE or NEEDS_REVIEW, the three counts of
    the report add up to its total; without matches, or with an empty
    list, all four are zero. *)
Theorem counts_add_up_to_the_total (results : Report.Results) :
  (∀ ms, Report.matches results = Some ms -> Forall Report.is_match_result ms) ->
  Report.eligibleCount results + Report.notEligibleCount results
  + Report.reviewCount results = Report.totalCount results
  ∧ match Report.matches results with
    | Some (_ :: _) => 0 < Report.totalCount results
    | _ => Report.eligibleCount results = 0
           ∧ Report.notEligibleCount results = 0
           ∧ Report.reviewCount results = 0
           ∧ Report.totalCount results = 0
    end.
Proof.
  intros Hall. destruct results as [message [ms|]].
  - split; [apply ReportFacts.sum_of_counts, Hall; reflexivity|].
    destruct ms; cbn; [done | lia].
  - done.
Qed.

Lemma counts_add_up_to_the_total_witness :
  (∀ ms, Report.matches Scenario.report_input = Some ms ->
         Forall Report.is_match_result ms)
  ∧ Report.eligibleCount Scenario.report_input
    + Report.notEligibleCount Scenario.report_input
    + Report.reviewCount Scenario.report_input
    = Report.totalCount Scenario.report_input.
Proof.
  assert (H : ∀ ms, Report.matches Scenario.report_input = Some ms ->
                    Forall Report.is_match_result ms).
  { intros ms [= <-]. unfold Report.is_match_result.
    repeat (apply Forall_cons_2; [cbn; auto|]). apply Forall_nil_2. }
  split; [exact H|].
  exact (proj1 (counts_add_up_to_the_total Scenario.report_input H)).
Defined.

Example report_input_counts :
  (Report.eligibleCount Scenario.report_input,
   Report.notEligibleCount Scenario.report_input,
   Report.reviewCount Scenario.report_input,
   Report.totalCount Scenario.report_input) = (1, 1, 1, 3).
Proof. vm_compute; reflexivity. Qed.

(** ** One request alone in flight *)

(** Given turn after turn, a request alone ends as [run] says. *)
Lemma until_await_run (env : Env) (p : prog response) (m : gmap jsstring nat) :
  ∃ n, drive n (until_await env p m)
       = (Done (out (run env p m)), store (run env p m)).
Proof.
  revert m. induction p as [r | e | X a k IH]; intros m.
  - by exists 0.
  - by exists 0.
  - cbn [until_await run].
    destruct (perform env a m) as [[x m'] evs] eqn:Hp.
    destruct (IH x m') as [n Hn].
    destruct (suspends a).
    + exists (S n). cbn [drive fst snd resume]. by rewrite Hp.
    + by exists n.
Qed.

Lemma alone_in_flight (env : Env) (p : prog response) (m : gmap jsstring nat) :
  ∃ n, drive n (Pending env p, m)
       = (Done (out (run env p m)), store (run env p m)).
Proof.
  destruct p as [r | e | X a k].
  - by exists 1.
  - by exists 1.
  - destruct (perform env a m) as [[x m'] evs] eqn:Hp.
    destruct (until_await_run env (k x) m') as [n Hn].
    exists (S n). cbn [drive fst snd resume run]. by rewrite Hp.
Qed.

(** * More properties of the handlers *)

(** ** The limit under any order of turns *)

Module LimitFacts.

Import Limit.

Lemma bounded_bind {A B : Type} (n : nat) (p : prog A) (f : A -> prog B) :
  bounded n p -> (∀ a, bounded n (f a)) -> bounded n (bind p f).
Proof.
  intros Hp Hf. induction p as [a | e | X a k IH]; cbn in *; [auto | done |].
  destruct Hp as [Ha Hk]. split; [done|]. intros x. apply IH, Hk.
Qed.

Lemma bounded_try_catch {A : Type} (n : nat) (p : prog A) (h : js_error -> prog A) :
  bounded n p -> (∀ e, bounded n (h e)) -> bounded n (try_catch p h).
Proof.
  intros Hp Hh. induction p as [a | e | X a k IH]; cbn in *; [done | auto |].
  destruct Hp as [Ha Hk]. split; [done|]. intros x. apply IH, Hk.
Qed.

Lemma bounded_await {X : Type} (n : nat) (a : action (settled X)) :
  writes_within n a -> bounded n (await a).
Proof. intros Ha. split; [done|]. by intros [x|e]. Qed.

Lemma bounded_prop (n : nat) (patientData : json_body) (f : PatientData -> jsval) :
  bounded n (prop patientData f).
Proof. by destruct patientData. Qed.

Lemma bounded_first_content (n : nat) (c : completion) :
  bounded n (first_content c).
Proof. by destruct c as [|[?|] ?]. Qed.

(** The handler writes no count above the limit: it writes the count it
    read plus one, and only after it found that count below the limit. *)
Lemma POST_bounded (request : Request) :
  bounded RateLimited.MAX_REQUESTS_PER_IP (RateLimited.POST request).
Proof.
  unfold RateLimited.POST. cbn. split; [done|]. intros found.
  case_bool_decide as Hlim; cbn; [done|].
  split; [done|]. intros [patientData | e]; cbn; [|by repeat split].
  split; [done|]. intros key. destruct (has_key key); cbn.
  - split; [done|]. intros [[]|e]; cbn; [|by repeat split].
    destruct patientData as [|pd]; cbn; [by repeat split|].
    destruct (analysis_prompt _ _ _ _ _ _ _) as [prompt|e]; cbn;
      [|by repeat split].
    split; [done|]. intros [c|e]; cbn; [|by repeat split].
    split; [lia|]. intros [].
    destruct c as [|[?|] ?]; cbn; by repeat split.
  - destruct patientData as [|pd]; cbn; [by repeat split|].
    destruct (to_string _); cbn; by repeat split.
Qed.

Lemma perform_within {X : Type} (n : nat) (env : Env) (a : action X)
    (m : gmap jsstring nat) :
  writes_within n a -> within n m -> within n (perform env a m).1.2.
Proof.
  intros Ha Hm. destruct a; try exact Hm.
  cbn in *. intros ip. destruct (decide (key = ip)) as [<- | Hne].
  - by rewrite QuotaFacts.count_insert_same.
  - by rewrite QuotaFacts.count_insert_other.
Qed.

Lemma until_await_within (n : nat) (env : Env) (p : prog response)
    (m : gmap jsstring nat) :
  bounded n p -> within n m ->
  inflight_bounded n (until_await env p m).1 ∧ within n (until_await env p m).2.
Proof.
  revert m. induction p as [r | e | X a k IH]; intros m Hp Hm; [done | done |].
  cbn [until_await]. destruct (suspends a); [done|].
  destruct Hp as [Ha Hk].
  pose proof (perform_within n env a m Ha Hm) as Hm'.
  destruct (perform env a m) as [[x m'] evs]. by apply IH.
Qed.

Lemma resume_within (n : nat) (t : inflight) (m : gmap jsstring nat) :
  inflight_bounded n t -> within n m ->
  inflight_bounded n (resume t m).1 ∧ within n (resume t m).2.
Proof.
  intros Ht Hm. destruct t as [env p | o]; [|done].
  destruct p as [r | e | X a k]; [done | done |].
  cbn [resume]. destruct Ht as [Ha Hk].
  pose proof (perform_within n env a m Ha Hm) as Hm'.
  destruct (perform env a m) as [[x m'] evs]. by apply until_await_within.
Qed.

Lemma step_within (n i : nat) (c : list inflight * gmap jsstring nat) :
  Forall (inflight_bounded n) c.1 -> within n c.2 ->
  Forall (inflight_bounded n) (step i c).1 ∧ within n (step i c).2.
Proof.
  intros Hpool Hm. unfold step. destruct (c.1 !! i) as [t|] eqn:Hi; [|done].
  assert (Ht : inflight_bounded n t).
  { eapply Forall_lookup_1; eauto. }
  destruct (resume_within n t c.2 Ht Hm) as [Ht' Hm'].
  destruct (resume t c.2) as [t' m']. cbn in *. split; [|done].
  by apply Forall_insert.
Qed.

Lemma schedule_within (n : nat) (turns : list nat)
    (c : list inflight * gmap jsstring nat) :
  Forall (inflight_bounded n) c.1 -> within n c.2 ->
  Forall (inflight_bounded n) (schedule turns c).1 ∧ within n (schedule turns c).2.
Proof.
  revert c. induction turns as [|i turns IH]; intros c Hpool Hm; [done|].
  cbn [schedule foldl]. destruct (step_within n i c Hpool Hm) as [H1 H2].
  by apply IH.
Qed.

Lemma arrivals_bounded (reqs : list (Env * Request)) :
  Forall (inflight_bounded RateLimited.MAX_REQUESTS_PER_IP) (arrivals reqs).
Proof.
  unfold arrivals. apply Forall_fmap, Forall_forall. intros [env request] _.
  apply POST_bounded.
Qed.

End LimitFacts.

(** X1: whatever requests are in flight and in whatever order they get
    their turns, no address ever has a stored count above the limit of 10,
    provided none had before. *)
Theorem count_stays_within_limit (reqs : list (Env * Request)) (turns : list nat)
    (m : gmap jsstring nat) (ip : jsstring) :
  (∀ ip', RateLimited.count m ip' ≤ RateLimited.MAX_REQUESTS_PER_IP) ->
  RateLimited.count (schedule turns (Limit.arrivals reqs, m)).2 ip
  ≤ RateLimited.MAX_REQUESTS_PER_IP.
Proof.
  intros Hm.
  apply (LimitFacts.schedule_within _ turns (Limit.arrivals reqs, m)).
  - apply LimitFacts.arrivals_bounded.
  - exact Hm.
Qed.

Lemma count_stays_within_limit_witness :
  (∀ ip', RateLimited.count (∅ : gmap jsstring nat) ip'
          ≤ RateLimited.MAX_REQUESTS_PER_IP)
  ∧ RateLimited.count
      (schedule Scenario.round_robin
         (Limit.arrivals Scenario.eleven_in_turn, ∅)).2 Scenario.client
    ≤ RateLimited.MAX_REQUESTS_PER_IP.
Proof.
  assert (H : ∀ ip', RateLimited.count (∅ : gmap jsstring nat) ip'
                     ≤ RateLimited.MAX_REQUESTS_PER_IP).
  { intros ip'. unfold RateLimited.count. rewrite lookup_empty. cbn.
    unfold RateLimited.MAX_REQUESTS_PER_IP. lia. }
  split; [exact H|].
  exact (count_stays_within_limit Scenario.eleven_in_turn Scenario.round_robin
           ∅ Scenario.client H).
Defined.

(** ** The quota, for any requests served one after the other *)

Module TallyFacts.

Import RateLimited Sequential Tally.

(** An analysis is answered only to a counted request: the count of its
    address goes up by one. *)
Lemma analysis_is_counted (env : Env) (request : Request) (m : gmap jsstring nat) :
  is_analysis (out (run env (POST request) m)) = true ->
  count (store (run env (POST request) m)) (ip_of request)
  = count m (ip_of request) + 1.
Proof.
  rewrite DirectFacts.run_RateLimited_POST.
  unfold Direct.RateLimited_POST, Direct.served.
  case_bool_decide as Hlim; [by vm_compute|].
  destruct (json request) as [[|pd]|e]; cbn; [| |by vm_compute].
  - destruct (has_key _); [destruct (import_groq env)|]; by vm_compute.
  - destruct (has_key _).
    + destruct (import_groq env); [|by vm_compute].
      destruct (analysis_prompt _ _ _ _ _ _ _) as [prompt|e]; [|by vm_compute].
      destruct (chat_create env _ _) as [[|[c|] rest]|e]; cbn;
        try (by vm_compute).
      intros _. apply QuotaFacts.count_insert_same.
    + destruct (to_string _); by vm_compute.
Qed.

(** A served request leaves every count at or under the limit there. *)
Lemma count_stays_under (env : Env) (request : Request) (m : gmap jsstring nat)
    (ip : jsstring) :
  count m ip ≤ MAX_REQUESTS_PER_IP ->
  count (store (run env (POST request) m)) ip ≤ MAX_REQUESTS_PER_IP.
Proof.
  intros Hle. destruct (QuotaFacts.store_cases env request m) as [-> | [Hlt ->]];
    [done|].
  destruct (decide (ip_of request = ip)) as [<- | Hne].
  - rewrite QuotaFacts.count_insert_same. lia.
  - by rewrite QuotaFacts.count_insert_other.
Qed.

Lemma analyses_bounded (ip : jsstring) (reqs : list (Env * Request))
    (m : gmap jsstring nat) :
  count m ip ≤ MAX_REQUESTS_PER_IP ->
  analyses ip reqs (serve_all reqs m).1 + count m ip
  ≤ count (serve_all reqs m).2 ip
  ∧ count (serve_all reqs m).2 ip ≤ MAX_REQUESTS_PER_IP.
Proof.
  revert m. induction reqs as [|[env request] reqs IH]; intros m Hle.
  - cbn. lia.
  - rewrite QuotaFacts.serve_all_cons. cbn [fst snd analyses].
    destruct (IH (store (run env (POST request) m))) as [IH1 IH2];
      [by apply count_stays_under|].
    split; [|done].
    pose proof (QuotaFacts.count_mono env request m ip) as Hmono.
    case_bool_decide as Hip; cbn [andb]; [|lia].
    destruct (is_analysis (out (run env (POST request) m))) eqn:Han; [|lia].
    apply analysis_is_counted in Han. subst ip. lia.
Qed.

End TallyFacts.

(** X2: served one after the other, the requests of an address are
    answered at most ten analyses in all, less what its count already was,
    whatever the requests of other addresses, the failures and the demo
    answers in between. *)
Theorem at_most_ten_analyses (ip : jsstring) (reqs : list (Env * Request))
    (m : gmap jsstring nat) :
  RateLimited.count m ip ≤ RateLimited.MAX_REQUESTS_PER_IP ->
  Tally.analyses ip reqs (Sequential.serve_all reqs m).1 + RateLimited.count m ip
  ≤ RateLimited.MAX_REQUESTS_PER_IP.
Proof.
  intros Hle. destruct (TallyFacts.analyses_bounded ip reqs m Hle). lia.
Qed.

Lemma at_most_ten_analyses_witness :
  RateLimited.count (∅ : gmap jsstring nat) Scenario.client
    ≤ RateLimited.MAX_REQUESTS_PER_IP
  ∧ Tally.analyses Scenario.client Scenario2.mixed
      (Sequential.serve_all Scenario2.mixed ∅).1
    + RateLimited.count (∅ : gmap jsstring nat) Scenario.client
    ≤ RateLimited.MAX_REQUESTS_PER_IP.
Proof.
  assert (H : RateLimited.count (∅ : gmap jsstring nat) Scenario.client
              ≤ RateLimited.MAX_REQUESTS_PER_IP) by (vm_compute; lia).
  split; [exact H|].
  exact (at_most_ten_analyses Scenario.client Scenario2.mixed ∅ H).
Defined.

Example mixed_tally :
  Tally.analyses Scenario.client Scenario2.mixed
    (Sequential.serve_all Scenario2.mixed ∅).1 = 2
  ∧ RateLimited.count (Sequential.serve_all Scenario2.mixed ∅).2 Scenario.client = 3
  ∧ RateLimited.count (Sequential.serve_all Scenario2.mixed ∅).2 (lit "unknown") = 1.
Proof. repeat split; vm_compute; reflexivity. Qed.

(** X3: a request changes the count of no address but its own. *)
Theorem other_addresses_are_untouched (env : Env) (request : Request)
    (m : gmap jsstring nat) (ip : jsstring) :
  ip ≠ RateLimited.ip_of request ->
  store (run env (RateLimited.POST request) m) !! ip = m !! ip.
Proof.
  intros Hne. destruct (QuotaFacts.store_cases env request m) as [-> | [_ ->]];
    [done|].
  by rewrite lookup_insert_ne.
Qed.

Lemma other_addresses_are_untouched_witness :
  lit "unknown" ≠ RateLimited.ip_of Scenario.request
  ∧ store (run Scenario.env_ok (RateLimited.POST Scenario.request)
             {[lit "unknown" := 4]}) !! lit "unknown"
    = ({[lit "unknown" := 4]} : gmap jsstring nat) !! lit "unknown".
Proof.
  assert (H : lit "unknown" ≠ RateLimited.ip_of Scenario.request)
    by (vm_compute; discriminate).
  split; [exact H|].
  exact (other_addresses_are_untouched Scenario.env_ok Scenario.request _ _ H).
Defined.

(** X4: when the x-forwarded-for header is not empty, the x-real-ip header
    plays no part: with any other value of it the request is answered the
    same and counted the same. *)
Theorem forwarded_header_wins (env : Env) (m : gmap jsstring nat)
    (forwarded : jsstring) (real real' : option jsstring)
    (body : settled json_body) :
  forwarded ≠ [] ->
  run env (RateLimited.POST
             {| x_forwarded_for := Some forwarded; x_real_ip := real; json := body |}) m
  = run env (RateLimited.POST
               {| x_forwarded_for := Some forwarded; x_real_ip := real'; json := body |}) m.
Proof.
  intros Hne. rewrite !DirectFacts.run_RateLimited_POST.
  unfold Direct.RateLimited_POST, Direct.served, RateLimited.ip_of, header_or.
  cbn. by destruct forwarded.
Qed.

Lemma forwarded_header_wins_witness :
  Scenario.client ≠ []
  ∧ run Scenario.env_ok (RateLimited.POST Scenario2.behind_proxy) ∅
    = run Scenario.env_ok (RateLimited.POST Scenario.request) ∅.
Proof.
  assert (H : Scenario.client ≠ []) by (vm_compute; discriminate).
  split; [exact H|].
  exact (forwarded_header_wins Scenario.env_ok ∅ Scenario.client
           (Some (lit "10.0.0.7")) None
           (Fulfilled (BodyFields Scenario.profile)) H).
Defined.

(** X5: requests without a usable address header, absent or empty, are all
    counted under the one key 'unknown': a completed request of one such
    client uses up the quota of every other. *)
Theorem anonymous_clients_share_a_count (env : Env) (request other : Request)
    (m : gmap jsstring nat) :
  Tally.no_address request = true ->
  Tally.no_address other = true ->
  RateLimited.count m (lit "unknown") < RateLimited.MAX_REQUESTS_PER_IP ->
  Sequential.succeeds env request = true ->
  RateLimited.ip_of other = lit "unknown"
  ∧ RateLimited.count (store (run env (RateLimited.POST request) m))
      (RateLimited.ip_of other)
    = RateLimited.count m (lit "unknown") + 1.
Proof.
  intros Hreq Hother Hlim Hok.
  assert (Hip : ∀ r, Tally.no_address r = true -> RateLimited.ip_of r = lit "unknown").
  { intros [[[|??]|] [[|??]|] ?]; cbn; done. }
  rewrite (Hip other Hother). split; [done|].
  destruct (QuotaFacts.served_below_limit env request m) as (c & _ & ->);
    [by rewrite (Hip request Hreq) | done |].
  rewrite (Hip request Hreq). apply QuotaFacts.count_insert_same.
Qed.

Lemma anonymous_clients_share_a_count_witness :
  Tally.no_address Scenario2.anonymous = true
  ∧ Tally.no_address Scenario2.blank_header = true
  ∧ RateLimited.count (store (run Scenario.env_ok
                                (RateLimited.POST Scenario2.anonymous) ∅))
      (RateLimited.ip_of Scenario2.blank_header) = 1.
Proof.
  split; [reflexivity|]. split; [reflexivity|].
  refine (proj2 (anonymous_clients_share_a_count Scenario.env_ok
                   Scenario2.anonymous Scenario2.blank_header ∅ _ _ _ _)).
  - reflexivity.
  - reflexivity.
  - vm_compute. lia.
  - reflexivity.
Defined.

(** ** What the handlers do and do not do *)

Module HandlerFacts.

Import Ending.

Lemma served_without_key (model : jsstring) (gap empty : string)
    (bump : gmap jsstring nat -> gmap jsstring nat)
    (env : Env) (request : Request) (m : gmap jsstring nat) :
  has_key (GROQ_API_KEY env) = false ->
  Forall before_sdk (trace (Direct.served model gap empty bump env request m)).
Proof.
  intros Hkey. unfold Direct.served, before_sdk. rewrite Hkey.
  destruct (json request) as [[|pd]|e]; cbn;
    [| destruct (to_string _); cbn |];
    repeat (apply Forall_cons_2; [eauto|]); apply Forall_nil_2.
Qed.

Lemma served_ended (model : jsstring) (gap empty : string)
    (bump : gmap jsstring nat -> gmap jsstring nat)
    (env : Env) (request : Request) (m : gmap jsstring nat) :
  ended (Direct.served model gap empty bump env request m).
Proof.
  unfold Direct.served, ended.
  destruct (json request) as [[|pd]|e]; cbn;
    [| | left; do 2 eexists; split; [reflexivity | quiet]].
  - destruct (has_key _); [destruct (import_groq env)|]; cbn;
      left; do 2 eexists; (split; [reflexivity | quiet]).
  - destruct (has_key _).
    + destruct (import_groq env); cbn;
        [|left; do 2 eexists; split; [reflexivity | quiet]].
      destruct (analysis_prompt _ _ _ _ _ _ _) as [prompt|e]; cbn;
        [|left; do 2 eexists; split; [reflexivity | quiet]].
      destruct (chat_create env _ _) as [[|[c|] rest]|e]; cbn;
        try (left; do 2 eexists; split; [reflexivity | quiet]).
      right; do 3 eexists; repeat split; [by left | quiet].
    + destruct (to_string _); cbn;
        [right; do 3 eexists; repeat split; [by left | quiet]
        |left; do 2 eexists; split; [reflexivity | quiet]].
Qed.

End HandlerFacts.

(** X6: without the credential neither handler imports the SDK or calls
    the backend, whatever the request: its body may be malformed or null.
    All that happens is the reading of the body and, on a failure, the
    logging of it. *)
Theorem no_key_no_backend (env : Env) (request : Request) (m : gmap jsstring nat) :
  has_key (GROQ_API_KEY env) = false ->
  Forall Ending.before_sdk (trace (run env (Route.POST request) m))
  ∧ Forall Ending.before_sdk (trace (run env (RateLimited.POST request) m)).
Proof.
  intros Hkey.
  rewrite DirectFacts.run_Route_POST, DirectFacts.run_RateLimited_POST.
  unfold Direct.Route_POST, Direct.RateLimited_POST.
  split; [by apply HandlerFacts.served_without_key|].
  case_bool_decide; [apply Forall_nil_2 | by apply HandlerFacts.served_without_key].
Qed.

Lemma no_key_no_backend_witness :
  has_key (GROQ_API_KEY Scenario.env_demo) = false
  ∧ Forall Ending.before_sdk
      (trace (run Scenario.env_demo (Route.POST Scenario.malformed_request) ∅)).
Proof.
  assert (H : has_key (GROQ_API_KEY Scenario.env_demo) = false) by reflexivity.
  split; [exact H|].
  exact (proj1 (no_key_no_backend Scenario.env_demo Scenario.malformed_request ∅ H)).
Defined.

(** X7: every request is answered, in one of two ways.  Either it ended in
    the [catch] block: the failure was logged once, last, and the response
    is the error object with the fixed text 'Failed to process request' and
    status 500, whatever the failure was.  Or nothing was logged and the
    response is a message with matches, of status 200 or 429. *)
Theorem answered_or_logged (env : Env) (request : Request) (m : gmap jsstring nat) :
  Ending.ended (run env (Route.POST request) m)
  ∧ Ending.ended (run env (RateLimited.POST request) m).
Proof.
  rewrite DirectFacts.run_Route_POST, DirectFacts.run_RateLimited_POST.
  unfold Direct.Route_POST, Direct.RateLimited_POST.
  split; [apply HandlerFacts.served_ended|].
  case_bool_decide; [|apply HandlerFacts.served_ended].
  right. do 3 eexists. repeat split; [by right | apply Forall_nil_2].
Qed.

(** X8: the handler of route.js neither reads nor writes the map of the
    limiter: it leaves it as it is and answers the same whatever it
    holds. *)
Theorem route_ignores_the_map (env : Env) (request : Request)
    (m m' : gmap jsstring nat) :
  store (run env (Route.POST request) m) = m
  ∧ out (run env (Route.POST request) m) = out (run env (Route.POST request) m')
  ∧ trace (run env (Route.POST request) m) = trace (run env (Route.POST request) m').
Proof.
  rewrite !DirectFacts.run_Route_POST. unfold Direct.Route_POST, Direct.served.
  served_cases; done.
Qed.

(** X9: the explanation of an analysis is a prefix of the text of the
    backend, and the whole of it when the text has at most 200 code
    units.  The analysis is what a request is answered whose fields all
    convert to a text; with a field that does not, the request is answered
    with the error object. *)
Theorem explanation_is_a_prefix (env : Env) (request : Request)
    (m : gmap jsstring nat) (pd : PatientData) (content : jsstring)
    (rest : list (option jsstring)) :
  json request = Fulfilled (BodyFields pd) ->
  has_key (GROQ_API_KEY env) = true ->
  import_groq env = Fulfilled tt ->
  (∀ model prompt, chat_create env model prompt = Fulfilled (Some content :: rest)) ->
  match analysis_prompt " " "    " (age pd) (gender pd) (conditions pd)
          (medications pd) (biomarkers pd) with
  | Returned _ =>
      ∃ resp mr,
        out (run env (Route.POST request) m) = Returned resp
        ∧ matches_of resp = [mr]
        ∧ explanation mr `prefix_of` content
        ∧ length (explanation mr) = length content `min` 200
        ∧ (length content ≤ 200 -> explanation mr = content)
  | Uncaught _ =>
      out (run env (Route.POST request) m) = Returned error_response
  end.
Proof.
  intros Hjson Hkey Himp Hchat.
  rewrite DirectFacts.run_Route_POST. unfold Direct.Route_POST, Direct.served.
  rewrite Hjson, Hkey, Himp.
  destruct (analysis_prompt _ _ _ _ _ _ _) as [prompt|e]; [|reflexivity].
  cbn. rewrite Hchat.
  eexists. eexists. split; [reflexivity|].
  unfold analysis_response, matches_of. cbn. split; [reflexivity|].
  unfold slice0. cbn [explanation]. split; [apply prefix_take|].
  split; [rewrite length_take; lia|].
  intros Hshort. by apply take_ge.
Qed.

Lemma explanation_is_a_prefix_witness :
  json Scenario.request = Fulfilled (BodyFields Scenario.profile)
  ∧ ∃ resp mr,
      out (run (Scenario.env_answering [Some Scenario2.long_answer])
             (Route.POST Scenario.request) ∅) = Returned resp
      ∧ matches_of resp = [mr]
      ∧ explanation mr `prefix_of` Scenario2.long_answer
      ∧ length (explanation mr) = length Scenario2.long_answer `min` 200
      ∧ (length Scenario2.long_answer ≤ 200 -> explanation mr = Scenario2.long_answer).
Proof.
  split; [reflexivity|].
  refine (explanation_is_a_prefix
            (Scenario.env_answering [Some Scenario2.long_answer])
            Scenario.request ∅ Scenario.profile Scenario2.long_answer [] _ _ _ _).
  - reflexivity.
  - reflexivity.
  - reflexivity.
  - intros model prompt. reflexivity.
Defined.

Example long_answer_is_cut :
  matches_of (analysis_response Scenario2.long_answer)
  = [ {| nct_id := lit "NCT04743505";
         title := lit "Lung Cancer Study";
         status := lit "ELIGIBLE";
         explanation := replicate 200 97%N |} ].
Proof. vm_compute; reflexivity. Qed.

(** X10: the prompt sent to the backend shows the medications as 'None'
    when they are missing, null, empty, zero or false, and as their own
    text otherwise; and, apart from that, the same for the biomarkers.
    This is so for a request whose body parses to a value other than
    [null] whose age, gender and conditions convert to a text, with the
    credential set and the SDK imported, and in the limited handler below
    the limit. *)
Theorem falsy_fields_read_None (env : Env) (request : Request)
    (m : gmap jsstring nat) (pd : PatientData)
    (a g c meds bios : jsstring) :
  json request = Fulfilled (BodyFields pd) ->
  has_key (GROQ_API_KEY env) = true ->
  import_groq env = Fulfilled tt ->
  to_string (age pd) = Returned a ->
  to_string (gender pd) = Returned g ->
  to_string (conditions pd) = Returned c ->
  (if truthy (medications pd) then to_string (medications pd) = Returned meds
   else meds = lit "None") ->
  (if truthy (biomarkers pd) then to_string (biomarkers pd) = Returned bios
   else bios = lit "None") ->
  EvChatCreate (lit "llama-3.3-70b-versatile")
    (prompt_text " " "    " a g c meds bios)
  ∈ trace (run env (Route.POST request) m)
  ∧ (RateLimited.count m (RateLimited.ip_of request) < RateLimited.MAX_REQUESTS_PER_IP ->
     EvChatCreate (lit "llama-3.2-3b-preview") (prompt_text "" "" a g c meds bios)
     ∈ trace (run env (RateLimited.POST request) m)).
Proof.
  intros Hjson Hkey Himp Ha Hg Hc Hm Hb.
  assert (Hprompt : ∀ gap empty,
             analysis_prompt gap empty (age pd) (gender pd) (conditions pd)
               (medications pd) (biomarkers pd)
             = Returned (prompt_text gap empty a g c meds bios)).
  { intros gap empty. unfold analysis_prompt, js_or.
    rewrite Ha, Hg, Hc. cbn.
    destruct (truthy (medications pd)); destruct (truthy (biomarkers pd));
      subst; rewrite ?Hm, ?Hb; reflexivity. }
  rewrite DirectFacts.run_Route_POST, DirectFacts.run_RateLimited_POST.
  unfold Direct.Route_POST, Direct.RateLimited_POST, Direct.served.
  rewrite Hjson, Hkey, Himp, !Hprompt. split.
  - destruct (chat_create env _ _) as [[|[x|] rest]|e]; cbn; set_solver.
  - intros Hlim. rewrite bool_decide_false by lia.
    destruct (chat_create env _ _) as [[|[x|] rest]|e]; cbn; set_solver.
Qed.

Lemma falsy_fields_read_None_witness :
  truthy (medications Scenario.bad_profile) = false
  ∧ truthy (biomarkers Scenario2.half_profile) = true
  ∧ EvChatCreate (lit "llama-3.3-70b-versatile")
      (prompt_text " " "    " (lit "5") (lit "Male") (lit "undefined")
         (lit "None") (lit "None"))
    ∈ trace (run Scenario.env_ok (Route.POST Scenario.bad_request) ∅)
  ∧ EvChatCreate (lit "llama-3.3-70b-versatile")
      (prompt_text " " "    " (lit "55") (lit "Male") (lit "Type 2 Diabetes")
         (lit "None") (lit "HbA1c: 8%"))
    ∈ trace (run Scenario.env_ok
               (Route.POST (Scenario.request_with Scenario2.half_profile)) ∅).
Proof.
  split; [reflexivity|]. split; [reflexivity|]. split.
  - refine (proj1 (falsy_fields_read_None Scenario.env_ok Scenario.bad_request ∅
                     Scenario.bad_profile (lit "5") (lit "Male") (lit "undefined")
                     (lit "None") (lit "None") _ _ _ _ _ _ _ _)); reflexivity.
  - refine (proj1 (falsy_fields_read_None Scenario.env_ok
                     (Scenario.request_with Scenario2.half_profile) ∅
                     Scenario2.half_profile (lit "55") (lit "Male")
                     (lit "Type 2 Diabetes") (lit "None") (lit "HbA1c: 8%")
                     _ _ _ _ _ _ _ _)); reflexivity.
Defined.

(** X11: a JSON body that is [null] is answered 500 by the handler of
    route.js, and by the limited handler unless it denies the request for
    being at the limit, which it does with the 429 before it reads the
    body.  Reading a field of [null] throws, in demo mode when the title
    of the placeholder is built and otherwise when the prompt is, so the
    backend is never called and nothing is counted. *)
Theorem null_body_fails (env : Env) (request : Request) (m : gmap jsstring nat) :
  json request = Fulfilled BodyNull ->
  out (run env (Route.POST request) m) = Returned error_response
  ∧ Forall (fun ev => ∀ model prompt, ev ≠ EvChatCreate model prompt)
      (trace (run env (Route.POST request) m))
  ∧ out (run env (RateLimited.POST request) m)
    = Returned
        (if bool_decide (RateLimited.MAX_REQUESTS_PER_IP
                         ≤ RateLimited.count m (RateLimited.ip_of request))
         then limit_response else error_response)
  ∧ store (run env (RateLimited.POST request) m) = m
  ∧ Forall (fun ev => ∀ model prompt, ev ≠ EvChatCreate model prompt)
      (trace (run env (RateLimited.POST request) m)).
Proof.
  intros Hjson.
  rewrite DirectFacts.run_Route_POST, DirectFacts.run_RateLimited_POST.
  unfold Direct.Route_POST, Direct.RateLimited_POST, Direct.served.
  rewrite Hjson. case_bool_decide;
    (destruct (has_key (GROQ_API_KEY env)); [destruct (import_groq env)|]; cbn;
     repeat split;
     repeat (apply Forall_cons_2; [discriminate|]); apply Forall_nil_2).
Qed.

Lemma null_body_fails_witness :
  json Scenario2.null_request = Fulfilled BodyNull
  ∧ out (run Scenario.env_ok (Route.POST Scenario2.null_request) ∅)
    = Returned error_response
  ∧ out (run Scenario.env_ok (RateLimited.POST Scenario2.null_request)
           {[ Scenario.client := 10 ]})
    = Returned limit_response.
Proof.
  split; [reflexivity|]. split.
  - refine (proj1 (null_body_fails Scenario.env_ok Scenario2.null_request ∅ _)).
    reflexivity.
  - refine (proj1 (proj2 (proj2 (null_body_fails Scenario.env_ok
                                   Scenario2.null_request
                                   {[ Scenario.client := 10 ]} _)))).
    reflexivity.
Defined.

(** ** The report and the page *)

Module CardFacts.

Import Report Card.

Lemma length_replace_first (from to : N) (s : jsstring) :
  length (replace_first from to s) = length s.
Proof.
  induction s as [|c s IH]; [done|]. cbn. destruct (c =? from)%N; cbn; congruence.
Qed.

Lemma replace_first_absent (from to : N) (s : jsstring) :
  from ∉ s -> replace_first from to s = s.
Proof.
  induction s as [|c s IH]; [done|]. intros Hnot.
  apply not_elem_of_cons in Hnot as [Hne Hnot]. cbn.
  destruct (N.eqb_spec c from) as [-> | _]; [done|]. by rewrite IH.
Qed.

Lemma replace_first_at (from to : N) (pre post : jsstring) :
  from ∉ pre ->
  replace_first from to (pre ++ from :: post) = pre ++ to :: post.
Proof.
  induction pre as [|c pre IH]; intros Hnot; cbn.
  - by rewrite N.eqb_refl.
  - apply not_elem_of_cons in Hnot as [Hne Hnot].
    destruct (N.eqb_spec c from) as [-> | _]; [done|]. by rewrite IH.
Qed.

(** A match gets one badge. *)
Lemma one_badge (x : Match) :
  (if bool_decide (badge_style (status x) = eligible) then 1 else 0)
  + (if bool_decide (badge_style (status x) = notEligible) then 1 else 0)
  + (if bool_decide (badge_style (status x) = needsReview) then 1 else 0) = 1.
Proof. by destruct (badge_style (status x)). Qed.

(** The badge and the counts test the status the same way, the third count
    apart. *)
Lemma badge_and_count (x : Match) :
  bool_decide (badge_style (status x) = eligible) = strict_eq_lit (status x) "ELIGIBLE"
  ∧ bool_decide (badge_style (status x) = notEligible)
    = strict_eq_lit (status x) "NOT_ELIGIBLE"
  ∧ (strict_eq_lit (status x) "NEEDS_REVIEW" = true ->
     bool_decide (badge_style (status x) = needsReview) = true).
Proof.
  unfold badge_style, strict_eq_lit.
  repeat case_bool_decide; try done;
    match goal with
    | H1 : status x = _, H2 : status x = _ |- _ =>
        rewrite H1 in H2; vm_compute in H2; discriminate
    end.
Qed.

(** Only a TypeError is thrown while a card is built. *)
Lemma to_string_throws (v : jsval) (e : js_error) :
  to_string v = Uncaught e -> e = TypeError.
Proof. destruct v as [| |[]| | | |[]]; cbv [to_string]; congruence. Qed.

Lemma status_text_throws (v : jsval) (e : js_error) :
  status_text v = Uncaught e -> e = TypeError.
Proof. destruct v; cbn; congruence. Qed.

Lemma analysis_text_throws (patient : PatientData) (m : Match) (e : js_error) :
  analysis_text patient m = Uncaught e -> e = TypeError.
Proof.
  unfold analysis_text. destruct (truthy _); [|discriminate].
  destruct (to_string (js_or _ _)) eqn:H1; cbn;
    [|intros [= <-]; by eapply to_string_throws].
  destruct (to_string (explanation m)) eqn:H2; cbn;
    [discriminate | intros [= <-]; by eapply to_string_throws].
Qed.

Lemma card_throws (patient : PatientData) (m : Match) (e : js_error) :
  card patient m = Uncaught e -> e = TypeError.
Proof.
  unfold card. destruct (status_text _) eqn:H1; cbn;
    [|intros [= <-]; by eapply status_text_throws].
  destruct (analysis_text patient m) eqn:H2; cbn;
    [discriminate | intros [= <-]; by eapply analysis_text_throws].
Qed.

Lemma card_badge_of (patient : PatientData) (m : Match) (c : Card) :
  card patient m = Returned c -> card_badge c = badge_style (status m).
Proof.
  unfold card. destruct (status_text _); cbn; [|discriminate].
  destruct (analysis_text _ _); cbn; [|discriminate]. by intros [= <-].
Qed.

(** [map] returns the cards of the matches, one for one, or throws what
    the card of one of them throws. *)
Lemma card_map_returned (patient : PatientData) (ms : list Match) (cs : list Card) :
  card_map patient ms = Returned cs ->
  Forall2 (fun m c => card patient m = Returned c) ms cs.
Proof.
  revert cs. induction ms as [|m ms IH]; intros cs; cbn.
  - intros [= <-]. constructor.
  - destruct (card patient m) eqn:Hc; cbn; [|discriminate].
    destruct (card_map patient ms) eqn:Hm; cbn; [|discriminate].
    intros [= <-]. constructor; auto.
Qed.

Lemma card_map_uncaught (patient : PatientData) (ms : list Match) (e : js_error) :
  card_map patient ms = Uncaught e ->
  ∃ i m, ms !! i = Some m ∧ card patient m = Uncaught e.
Proof.
  induction ms as [|x ms IH]; cbn; [discriminate|].
  destruct (card patient x) eqn:Hc; cbn.
  - destruct (card_map patient ms) eqn:Hm; cbn; [discriminate|].
    intros [= <-]. destruct (IH eq_refl) as (i & m & Hi & Hthrow).
    by exists (S i), m.
  - intros [= <-]. by exists 0, x.
Qed.

Lemma cards_by_index (patient : PatientData) (ms : list Match) (cs : list Card) :
  Forall2 (fun m c => card patient m = Returned c) ms cs ->
  ∀ i, Returned <$> cs !! i = card patient <$> ms !! i.
Proof.
  induction 1 as [|m c ms cs Hc Hrest IH]; intros [|i]; cbn; try done.
  by rewrite Hc.
Qed.

(** The badges of the cards are those of their matches. *)
Lemma badge_count_matches (patient : PatientData) (ms : list Match)
    (cs : list Card) (b : badge) :
  Forall2 (fun m c => card patient m = Returned c) ms cs ->
  badge_count b cs
  = length (List.filter (fun m => bool_decide (badge_style (status m) = b)) ms).
Proof.
  unfold badge_count.
  induction 1 as [|m c ms cs Hc Hrest IH]; cbn; [done|].
  rewrite (card_badge_of _ _ _ Hc). destruct (bool_decide _); cbn; congruence.
Qed.

Lemma filter_take_le {A : Type} (f : A -> bool) (n : nat) (l : list A) :
  length (List.filter f (take n l)) ≤ length (List.filter f l).
Proof.
  revert n. induction l as [|x l IH]; intros [|n]; cbn; try lia.
  specialize (IH n). destruct (f x); cbn; lia.
Qed.

Lemma badges_and_counts (message : jsval) (ms : list Match) :
  let results := {| message := message; matches := Some ms |} in
  let drawn b :=
    length (List.filter (fun m => bool_decide (badge_style (status m) = b)) ms) in
  drawn eligible = eligibleCount results
  ∧ drawn notEligible = notEligibleCount results
  ∧ reviewCount results ≤ drawn needsReview
  ∧ drawn eligible + drawn notEligible + drawn needsReview = totalCount results.
Proof.
  unfold eligibleCount, notEligibleCount, reviewCount, count_status, totalCount.
  cbn [matches].
  induction ms as [|x ms IH]; [cbn; lia|].
  cbn zeta in *. cbn [List.filter].
  destruct (badge_and_count x) as (He & Hn & Hrev).
  pose proof (one_badge x) as Hone. rewrite He, Hn in *.
  destruct (strict_eq_lit (status x) "ELIGIBLE");
    destruct (strict_eq_lit (status x) "NOT_ELIGIBLE");
    destruct (strict_eq_lit (status x) "NEEDS_REVIEW");
    try rewrite (Hrev eq_refl) in *;
    destruct (bool_decide (badge_style (status x) = needsReview));
    cbn [length] in *; lia.
Qed.

End CardFacts.

(** X12: the handlers never answer NOT_ELIGIBLE.  In the report of any of
    their responses the count of the not eligible is zero, the eligible and
    the ones to review add up to the total, and the total is at most
    one. *)
Theorem report_of_a_handler (env : Env) (request : Request) (m : gmap jsstring nat) :
  match out (run env (Route.POST request) m),
        out (run env (RateLimited.POST request) m) with
  | Returned resp, Returned resp' =>
      Forall (fun rs =>
                Report.notEligibleCount rs = 0
                ∧ Report.eligibleCount rs + Report.reviewCount rs = Report.totalCount rs
                ∧ Report.totalCount rs ≤ 1)
        [Report.of_response resp; Report.of_response resp']
  | _, _ => False
  end.
Proof.
  assert (H : ∀ resp,
             resp = limit_response ∨ resp = error_response
             ∨ (∃ v, resp = demo_response v) ∨ (∃ c, resp = analysis_response c) ->
             Report.notEligibleCount (Report.of_response resp) = 0
             ∧ Report.eligibleCount (Report.of_response resp)
               + Report.reviewCount (Report.of_response resp)
               = Report.totalCount (Report.of_response resp)
             ∧ Report.totalCount (Report.of_response resp) ≤ 1).
  { intros resp [-> | [-> | [[v ->] | [c ->]]]]; vm_compute; lia. }
  destruct (AnswerFacts.Route_answers env request m) as (resp & -> & Hr).
  destruct (AnswerFacts.RateLimited_answers env request m) as (resp' & -> & Hr').
  apply Forall_cons_2; [apply H; by right|].
  apply Forall_cons_2; [by apply H | apply Forall_nil_2].
Qed.

(** X13: the report draws a card for the first five matches, in their
    order, and none for the others, which the summary still counts; without
    matches, or with an empty list, it prints that no trial was analyzed.
    When the card of one of the first five matches cannot be built, a
    TypeError is thrown and no card at all is drawn. *)
Theorem five_cards_at_most (patient : PatientData) (results : Report.Results) :
  match Card.cards patient results with
  | Returned (Some cs) =>
      length cs = Report.totalCount results `min` 5
      ∧ 0 < length cs
      ∧ ∃ ms, Report.matches results = Some ms
              ∧ ∀ i, Returned <$> cs !! i
                     = if decide (i < 5) then Card.card patient <$> ms !! i else None
  | Returned None => Report.totalCount results = 0
  | Uncaught e =>
      e = TypeError
      ∧ ∃ ms i x, Report.matches results = Some ms
                  ∧ i < 5
                  ∧ ms !! i = Some x
                  ∧ Card.card patient x = Uncaught TypeError
  end.
Proof.
  destruct results as [message [[|x ms]|]]; [done | | done].
  unfold Card.cards, Report.totalCount. cbn [Report.matches].
  destruct (Card.card_map patient (take 5 (x :: ms))) as [cs|e] eqn:Hmap.
  - apply CardFacts.card_map_returned in Hmap.
    assert (Hlen : length cs = length (x :: ms) `min` 5).
    { rewrite <- (Forall2_length _ _ _ Hmap), length_take. lia. }
    change (length cs = length (x :: ms) `min` 5
            ∧ 0 < length cs
            ∧ ∃ ms0, Some (x :: ms) = Some ms0
                     ∧ ∀ i, Returned <$> cs !! i
                            = if decide (i < 5) then Card.card patient <$> ms0 !! i
                              else None).
    split; [exact Hlen|]. split; [rewrite Hlen; cbn [length]; lia|].
    exists (x :: ms). split; [done|]. intros i.
    rewrite (CardFacts.cards_by_index _ _ _ Hmap), lookup_take.
    by case_decide.
  - apply CardFacts.card_map_uncaught in Hmap as (i & y & Hi & Hthrow).
    pose proof (CardFacts.card_throws _ _ _ Hthrow) as ->.
    apply lookup_take_Some in Hi as [Hi Hlt].
    change (TypeError = TypeError
            ∧ ∃ ms0 i0 x0, Some (x :: ms) = Some ms0 ∧ i0 < 5
                           ∧ ms0 !! i0 = Some x0
                           ∧ Card.card patient x0 = Uncaught TypeError).
    split; [done|]. by exists (x :: ms), i, y.
Qed.

Example seven_matches_five_cards :
  Report.totalCount Scenario2.seven = 7
  ∧ Card.cards Scenario2.form_patient Scenario2.seven
    = Returned (Some Scenario2.seven_cards)
  ∧ length Scenario2.seven_cards = 5.
Proof. repeat split; vm_compute; reflexivity. Qed.

(** One status that is a number among the first five, and no card is
    drawn. *)
Example numeric_status_draws_nothing :
  Card.cards Scenario2.form_patient Scenario2.numbered = Uncaught TypeError
  ∧ Report.totalCount Scenario2.numbered = 2.
Proof. split; vm_compute; reflexivity. Qed.

(** X14: the text of a status badge is never empty: a status that is
    absent, null or reads empty is shown as UNKNOWN, a string keeps its
    length; a status that is a number, a boolean or an object makes the
    rendering throw. *)
Theorem status_text_is_never_empty (status : jsval) :
  match status, Card.status_text status with
  | (JUndefined | JNull | JStr []), shown => shown = Returned (lit "UNKNOWN")
  | JStr s, Returned shown => length shown = length s ∧ shown ≠ []
  | (JBool _ | JNum _ | JNumber _ | JObject _), shown => shown = Uncaught TypeError
  | _, _ => False
  end.
Proof.
  destruct status as [| | b | n | t | [|c s] | o]; cbn; try done.
  destruct (c =? Card.underscore)%N; cbn;
    rewrite ?CardFacts.length_replace_first; done.
Qed.

(** X15: in the text of a status badge the first underscore, and no other,
    is turned into a blank; a status without one is shown as it is. *)
Theorem first_underscore_becomes_a_blank (pre post : jsstring) :
  Card.underscore ∉ pre ->
  Card.status_text (JStr (pre ++ Card.underscore :: post))
  = Returned (pre ++ Card.space :: post)
  ∧ (pre ≠ [] -> Card.status_text (JStr pre) = Returned pre).
Proof.
  intros Hnot. unfold Card.status_text.
  rewrite CardFacts.replace_first_at, CardFacts.replace_first_absent by done.
  split; [by destruct pre|]. by destruct pre.
Qed.

Lemma first_underscore_becomes_a_blank_witness :
  (Card.underscore ∉ lit "PENDING")
  ∧ Card.status_text (JStr (lit "PENDING_LAB_RESULTS"))
    = Returned (lit "PENDING LAB_RESULTS").
Proof.
  assert (H : Card.underscore ∉ lit "PENDING").
  { apply (bool_decide_unpack _). vm_compute. exact I. }
  split; [exact H|].
  exact (proj1 (first_underscore_becomes_a_blank (lit "PENDING")
                  (lit "LAB_RESULTS") H)).
Defined.

Example statuses_shown :
  Card.status_text (JStr (lit "NOT_ELIGIBLE")) = Returned (lit "NOT ELIGIBLE")
  ∧ Card.status_text (JStr (lit "NEEDS_REVIEW")) = Returned (lit "NEEDS REVIEW")
  ∧ Card.status_text (JStr (lit "ELIGIBLE")) = Returned (lit "ELIGIBLE").
Proof. repeat split; vm_compute; reflexivity. Qed.

(** X16: the colour given to the text of a badge is the colour of the style
    the badge is drawn with, for every status. *)
Theorem badge_colours_agree (status : jsval) :
  Card.text_color status = Card.color (Card.badge_style status).
Proof.
  unfold Card.text_color, Card.badge_style.
  by repeat destruct (strict_eq_lit _ _).
Qed.

(** X17: the badges are drawn on the cards, that is for the first five
    matches, while the summary counts all the matches.  When the cards are
    drawn, every card has one of the three badges; no more cards are drawn
    as eligible than matches are counted eligible, and likewise for the not
    eligible.  With at most five matches the two sort the matches the same
    way but for one case: as many are drawn as eligible as are counted
    eligible, and as many as not eligible as are counted so, while a match
    of any other status is drawn as needing review without being counted
    as such. *)
Theorem badges_and_summary (patient : PatientData) (results : Report.Results)
    (cs : list Card.Card) :
  Card.cards patient results = Returned (Some cs) ->
  Card.badge_count Card.eligible cs
  + Card.badge_count Card.notEligible cs
  + Card.badge_count Card.needsReview cs = Report.totalCount results `min` 5
  ∧ Card.badge_count Card.eligible cs ≤ Report.eligibleCount results
  ∧ Card.badge_count Card.notEligible cs ≤ Report.notEligibleCount results
  ∧ (Report.totalCount results ≤ 5 ->
     Card.badge_count Card.eligible cs = Report.eligibleCount results
     ∧ Card.badge_count Card.notEligible cs = Report.notEligibleCount results
     ∧ Report.reviewCount results ≤ Card.badge_count Card.needsReview cs).
Proof.
  destruct results as [message [[|x ms]|]]; [done | | done].
  unfold Card.cards. cbn [Report.matches].
  destruct (Card.card_map patient (take 5 (x :: ms))) as [cs'|e] eqn:Hmap;
    [|discriminate].
  intros [= <-]. apply CardFacts.card_map_returned in Hmap.
  rewrite !(CardFacts.badge_count_matches _ _ _ _ Hmap).
  destruct (CardFacts.badges_and_counts message (take 5 (x :: ms)))
    as (_ & _ & _ & Hsum).
  destruct (CardFacts.badges_and_counts message (x :: ms))
    as (He & Hn & Hr & _).
  cbn zeta in *. unfold Report.totalCount in *. cbn [Report.matches] in *.
  rewrite length_take in Hsum.
  split; [lia|]. split; [rewrite <- He; apply CardFacts.filter_take_le|].
  split; [rewrite <- Hn; apply CardFacts.filter_take_le|].
  intros Hfive. rewrite take_ge by done. done.
Qed.

Lemma badges_and_summary_witness :
  Card.cards Scenario2.form_patient Scenario.report_input
  = Returned (Some Scenario2.three_cards)
  ∧ Report.totalCount Scenario.report_input ≤ 5
  ∧ Card.badge_count Card.eligible Scenario2.three_cards
    = Report.eligibleCount Scenario.report_input.
Proof.
  assert (H : Card.cards Scenario2.form_patient Scenario.report_input
              = Returned (Some Scenario2.three_cards))
    by (vm_compute; reflexivity).
  assert (H5 : Report.totalCount Scenario.report_input ≤ 5)
    by (vm_compute; lia).
  split; [exact H|]. split; [exact H5|].
  exact (proj1 (proj2 (proj2 (proj2
           (badges_and_summary Scenario2.form_patient Scenario.report_input
              Scenario2.three_cards H))) H5)).
Defined.

(** Seven matches: five cards, all drawn as eligible, while six matches are
    counted eligible and the seventh, of a status of its own, gets no
    card. *)
Example seven_badges :
  Card.badge_count Card.eligible Scenario2.seven_cards = 5
  ∧ Card.badge_count Card.needsReview Scenario2.seven_cards = 0
  ∧ Report.eligibleCount Scenario2.seven = 6
  ∧ Report.reviewCount Scenario2.seven = 0
  ∧ Report.totalCount Scenario2.seven = 7.
Proof. repeat split; vm_compute; reflexivity. Qed.

(** X18: the page and the report sort a status the same way: the icon and
    the pill of the page are the green ones exactly when the badge of the
    report is the eligible one, the red ones when it is the not eligible
    one, and the yellow ones otherwise. *)
Theorem page_and_report_agree (status : jsval) :
  match Card.badge_style status with
  | Card.eligible =>
      Page.getStatusIcon status = (Page.CheckCircle, "h-5 w-5 text-green-500")
      ∧ Page.status_class status = "bg-green-100 text-green-800"
  | Card.notEligible =>
      Page.getStatusIcon status = (Page.XCircle, "h-5 w-5 text-red-500")
      ∧ Page.status_class status = "bg-red-100 text-red-800"
  | Card.needsReview =>
      Page.getStatusIcon status = (Page.AlertCircle, "h-5 w-5 text-yellow-500")
      ∧ Page.status_class status = "bg-yellow-100 text-yellow-800"
  end.
Proof.
  unfold Card.badge_style, Page.getStatusIcon, Page.status_class.
  by repeat destruct (strict_eq_lit _ _).
Qed.

(** X19: the analysis printed on a card is the sentence built around the
    explanation, cut at 300 code units.  For an eligible match the sentence
    spends 79 code units and the length of the patient's conditions before
    the explanation starts, so that of the explanation only the first
    221 less that length are printed: all of it when the two lengths
    together are at most 221. *)
Theorem explanation_room_on_a_card (patient : PatientData) (m : Report.Match)
    (cond expl : jsstring) :
  Report.status m = JStr (lit "ELIGIBLE") ->
  conditions patient = JStr cond -> cond ≠ [] ->
  Report.explanation m = JStr expl -> expl ≠ [] ->
  length cond ≤ 221 ->
  Report.analysis_text patient m
  = Returned (lit "Based on the patient's " ++ cond
              ++ lit " and biomarkers, this trial appears to be a good match. "
              ++ take (221 - length cond) expl)
  ∧ (length cond + length expl ≤ 221 ->
     Report.analysis_text patient m = Card.analysis_sentence patient m).
Proof.
  intros Hst Hc Hcne He Hene Hlen.
  unfold Report.analysis_text, Card.analysis_sentence, strict_eq_lit, js_or.
  rewrite Hst, Hc, He. rewrite bool_decide_true by done.
  destruct cond as [|c cond]; [done|]. destruct expl as [|x expl]; [done|].
  cbn [truthy]. unfold to_string. cbn [mbind mret outcome_bind outcome_ret].
  set (head := lit "Based on the patient's ").
  set (mid := lit " and biomarkers, this trial appears to be a "). 
  assert (Hhead : length head = 23) by reflexivity.
  assert (Hmid : length mid = 44) by reflexivity.
  assert (Hgood : length (lit "good") = 4) by reflexivity.
  assert (Htail : length (lit " match. ") = 8) by reflexivity.
  assert (Hsplit : lit " and biomarkers, this trial appears to be a good match. "
                   = mid ++ lit "good" ++ lit " match. ") by reflexivity.
  rewrite Hsplit. unfold substring0.
  set (e := x :: expl) in *. set (k := c :: cond) in *.
  replace (head ++ k ++ mid ++ lit "good" ++ lit " match. " ++ e)
    with ((head ++ k ++ mid ++ lit "good" ++ lit " match. ") ++ e)
    by (by rewrite <- !app_assoc).
  assert (Hpre : length (head ++ k ++ mid ++ lit "good" ++ lit " match. ")
                 = 79 + length k).
  { rewrite !length_app, Hhead, Hmid, Hgood, Htail. lia. }
  split.
  - f_equal. rewrite take_app, Hpre, take_ge by lia.
    replace (300 - (79 + length k)) with (221 - length k) by lia.
    by rewrite <- !app_assoc.
  - intros Hfit. f_equal. apply take_ge. rewrite length_app, Hpre. lia.
Qed.

Lemma explanation_room_on_a_card_witness :
  length (lit "Non-Small Cell Lung Cancer") ≤ 221
  ∧ Report.analysis_text Scenario.profile
      {| Report.nct_id := JStr (lit "NCT04743505");
         Report.title := JStr (lit "Lung Cancer Study");
         Report.status := JStr (lit "ELIGIBLE");
         Report.explanation := JStr (replicate 200 97%N) |}
    = Returned
        (lit "Based on the patient's " ++ lit "Non-Small Cell Lung Cancer"
         ++ lit " and biomarkers, this trial appears to be a good match. "
         ++ take (221 - length (lit "Non-Small Cell Lung Cancer"))
              (replicate 200 97%N)).
Proof.
  assert (H : length (lit "Non-Small Cell Lung Cancer") ≤ 221)
    by (vm_compute; lia).
  split; [exact H|].
  refine (proj1 (explanation_room_on_a_card Scenario.profile _
                   (lit "Non-Small Cell Lung Cancer") (replicate 200 97%N)
                   _ _ _ _ _ H)).
  - reflexivity.
  - reflexivity.
  - vm_compute; discriminate.
  - reflexivity.
  - vm_compute; discriminate.
Defined.

Example readme_conditions_leave_195 :
  221 - length (lit "Non-Small Cell Lung Cancer") = 195.
Proof. reflexivity. Qed.

(** ** The page and the handlers *)

Module PageFacts.

Lemma total_of_response (resp : response) :
  Report.totalCount (Report.of_response resp) = length (matches_of resp).
Proof.
  unfold Report.totalCount, Report.of_response, matches_of.
  destruct (body resp); cbn; [by rewrite length_map | done].
Qed.

End PageFacts.

(** X20: the page does not look at the status of a response.  Whatever a
    handler answers, the analysis, the demo placeholder, the 429 or the
    500, the page stops loading, stores the body as its results, moves to
    the results tab and raises no alert; the tab counts the matches of the
    body, none for a 429 or a 500. *)
Theorem page_shows_any_answer (env : Env) (request : Request)
    (m : gmap jsstring nat) (st : Page.State) :
  Forall (fun o =>
            match o with
            | Returned resp =>
                Page.handleSubmit (Page.delivered resp) st
                = ({| Page.loading := false;
                      Page.results := Some (Report.of_response resp);
                      Page.activeTab := Page.tab_results |}, [])
                ∧ Page.tab_count (Page.handleSubmit (Page.delivered resp) st).1
                  = Some (length (matches_of resp))
                ∧ (http_status resp = 200 ∨ matches_of resp = [])
            | Uncaught _ => False
            end)
    [out (run env (Route.POST request) m);
     out (run env (RateLimited.POST request) m)].
Proof.
  assert (H : ∀ resp,
             resp = limit_response ∨ resp = error_response
             ∨ (∃ v, resp = demo_response v) ∨ (∃ c, resp = analysis_response c) ->
             Page.handleSubmit (Page.delivered resp) st
             = ({| Page.loading := false;
                   Page.results := Some (Report.of_response resp);
                   Page.activeTab := Page.tab_results |}, [])
             ∧ Page.tab_count (Page.handleSubmit (Page.delivered resp) st).1
               = Some (length (matches_of resp))
             ∧ (http_status resp = 200 ∨ matches_of resp = [])).
  { intros resp Hresp. split; [reflexivity|]. split.
    - unfold Page.tab_count. cbn. by rewrite PageFacts.total_of_response.
    - destruct Hresp as [-> | [-> | [[v ->] | [c ->]]]]; auto. }
  destruct (AnswerFacts.Route_answers env request m) as (resp & -> & Hr).
  destruct (AnswerFacts.RateLimited_answers env request m) as (resp' & -> & Hr').
  apply Forall_cons_2; [apply H; by right|].
  apply Forall_cons_2; [by apply H | apply Forall_nil_2].
Qed.


(** ** The forwarding handler *)

Module ProxyFacts.

Import Proxy.

(** The [catch] block: the outcome after the failure was logged. *)
Lemma fallen_back {J : Type} (w : World J) (request : Request) :
  forwards w request = None ->
  (run w (POST request)).1
  = match import_groq (groq_env w) with
    | Rejected e => Uncaught (Js e)
    | Fulfilled _ =>
        if new_Groq_throws w (GROQ_API_KEY (groq_env w))
        then Uncaught GroqError
        else Returned (NextResponse_json (Fallback (lit "Using fallback matching") []))
    end.
Proof.
  unfold forwards, POST. cbn.
  destruct (json request) as [patientData|e]; cbn.
  2: { intros _. destruct (import_groq _); cbn; [|done].
       by destruct (new_Groq_throws _ _). }
  destruct (python w patientData) as [[[] pj]|e]; cbn.
  - destruct pj as [results|e]; cbn; [done|]. intros _.
    destruct (import_groq _); cbn; [|done]. by destruct (new_Groq_throws _ _).
  - intros _. destruct (import_groq _); cbn; [|done].
    by destruct (new_Groq_throws _ _).
  - intros _. destruct (import_groq _); cbn; [|done].
    by destruct (new_Groq_throws _ _).
Qed.

Lemma forwarded {J : Type} (w : World J) (request : Request) (results : J) :
  forwards w request = Some results ->
  ∃ patientData,
    json request = Fulfilled patientData
    ∧ run w (POST request)
      = (Returned (NextResponse_json (Forwarded results)),
         [EvRequestJson; EvFetch patientData; EvResponseJson]).
Proof.
  unfold forwards, POST. cbn.
  destruct (json request) as [patientData|e]; cbn; [|done].
  destruct (python w patientData) as [[[] pj]|e]; cbn; try done.
  destruct pj as [r|e]; cbn; [|done]. intros [= ->]. by exists patientData.
Qed.

End ProxyFacts.

(** X21: when the forwarding handler answers, the status is 200 and the
    body is either the JSON of the Python backend, as it came, or the
    fallback with the message 'Using fallback matching' and no matches.  A
    failed backend is never reported as an error, and the fallback, which
    builds the SDK's client, never calls it. *)
Theorem proxy_answers_200 {J : Type} (w : Proxy.World J) (request : Request) :
  match (Proxy.run w (Proxy.POST request)).1 with
  | Proxy.Returned resp =>
      Proxy.http_status resp = 200
      ∧ match Proxy.forwards w request with
        | Some results => Proxy.body resp = Proxy.Forwarded results
        | None => Proxy.body resp = Proxy.Fallback (lit "Using fallback matching") []
        end
  | Proxy.Uncaught _ => Proxy.forwards w request = None
  end.
Proof.
  destruct (Proxy.forwards w request) as [results|] eqn:Hf.
  - destruct (ProxyFacts.forwarded w request results Hf) as (pd & _ & ->). done.
  - rewrite (ProxyFacts.fallen_back w request Hf).
    destruct (import_groq _); [|done]. by destruct (Proxy.new_Groq_throws _ _).
Qed.

(** X22: a request whose body is not JSON is not forwarded: the Python
    backend is not called, and the failure is logged before the fallback
    is prepared. *)
Theorem malformed_body_is_not_forwarded {J : Type} (w : Proxy.World J)
    (request : Request) (e : js_error) :
  json request = Rejected e ->
  Forall (fun ev => ∀ sent, ev ≠ Proxy.EvFetch sent)
    (Proxy.run w (Proxy.POST request)).2
  ∧ ∃ evs, (Proxy.run w (Proxy.POST request)).2
           = [Proxy.EvRequestJson; Proxy.EvConsoleError (Proxy.Js e);
              Proxy.EvImportGroq] ++ evs.
Proof.
  intros Hjson. unfold Proxy.POST. cbn. rewrite Hjson. cbn.
  destruct (import_groq _); cbn; [destruct (Proxy.new_Groq_throws _ _)|]; cbn;
    (split; [quiet | eauto]).
Qed.

Lemma malformed_body_is_not_forwarded_witness :
  json Scenario.malformed_request = Rejected SyntaxError
  ∧ Forall (fun ev => ∀ sent, ev ≠ Proxy.EvFetch sent)
      (Proxy.run Scenario2.python_up (Proxy.POST Scenario.malformed_request)).2.
Proof.
  assert (H : json Scenario.malformed_request = Rejected SyntaxError)
    by reflexivity.
  split; [exact H|].
  exact (proj1 (malformed_body_is_not_forwarded Scenario2.python_up
                  Scenario.malformed_request SyntaxError H)).
Defined.

(** X23: the forwarding handler can end without a response.  Its [catch]
    block awaits the import of the SDK outside any [try]: when forwarding
    failed and the import is rejected, the rejection leaves the handler. *)
Theorem proxy_can_throw {J : Type} (w : Proxy.World J) (request : Request)
    (e : js_error) :
  Proxy.forwards w request = None ->
  import_groq (Proxy.groq_env w) = Rejected e ->
  (Proxy.run w (Proxy.POST request)).1 = Proxy.Uncaught (Proxy.Js e).
Proof.
  intros Hf Himp. by rewrite (ProxyFacts.fallen_back w request Hf), Himp.
Qed.

Lemma proxy_can_throw_witness :
  Proxy.forwards Scenario2.python_down_no_sdk Scenario.request = None
  ∧ (Proxy.run Scenario2.python_down_no_sdk (Proxy.POST Scenario.request)).1
    = Proxy.Uncaught (Proxy.Js ImportError).
Proof.
  assert (H : Proxy.forwards Scenario2.python_down_no_sdk Scenario.request = None)
    by reflexivity.
  split; [exact H|].
  exact (proxy_can_throw Scenario2.python_down_no_sdk Scenario.request
           ImportError H eq_refl).
Defined.

Example proxy_up_and_down :
  (Proxy.run Scenario2.python_up (Proxy.POST Scenario.request)).1
  = Proxy.Returned {| Proxy.body := Proxy.Forwarded 7; Proxy.http_status := 200 |}
  ∧ (Proxy.run Scenario2.python_down (Proxy.POST Scenario.request)).1
    = Proxy.Returned
        {| Proxy.body := Proxy.Fallback (lit "Using fallback matching") [];
           Proxy.http_status := 200 |}.
Proof. split; vm_compute; reflexivity. Qed.

(** ** The two handlers side by side *)

(** The prompts of the two handlers differ in white space only: they are
    built, or throw the same, together. *)
Lemma prompts_convert_together (gap empty gap' empty' : string)
    (age gender conditions medications biomarkers : jsval) :
  match analysis_prompt gap empty age gender conditions medications biomarkers,
        analysis_prompt gap' empty' age gender conditions medications biomarkers
  with
  | Returned _, Returned _ => True
  | Uncaught e, Uncaught e' => e = e'
  | _, _ => False
  end.
Proof.
  unfold analysis_prompt.
  destruct (to_string age); cbn; [|done].
  destruct (to_string gender); cbn; [|done].
  destruct (to_string conditions); cbn; [|done].
  destruct (to_string (js_or medications _)); cbn; [|done].
  destruct (to_string (js_or biomarkers _)); cbn; done.
Qed.

(** X24: below the limit the limiter is not seen.  For a backend that
    answers the same whatever the model and the white space of the prompt,
    the limited handler answers a request as the handler of route.js
    does. *)
Theorem limiter_is_not_seen_below_the_limit (env : Env) (request : Request)
    (m : gmap jsstring nat) (answer : settled completion) :
  RateLimited.count m (RateLimited.ip_of request) < RateLimited.MAX_REQUESTS_PER_IP ->
  (∀ model prompt, chat_create env model prompt = answer) ->
  out (run env (RateLimited.POST request) m) = out (run env (Route.POST request) m).
Proof.
  intros Hlim Hchat.
  rewrite DirectFacts.run_Route_POST, DirectFacts.run_RateLimited_POST.
  unfold Direct.Route_POST, Direct.RateLimited_POST, Direct.served.
  rewrite bool_decide_false by lia.
  destruct (json request) as [[|pd]|e]; cbn; [| |done].
  - destruct (has_key _); [destruct (import_groq env)|]; done.
  - destruct (has_key _); [|by destruct (to_string _)].
    destruct (import_groq env); [|done].
    pose proof (prompts_convert_together "" "" " " "    " (age pd) (gender pd)
                  (conditions pd) (medications pd) (biomarkers pd)) as Hp.
    destruct (analysis_prompt "" "" _ _ _ _ _);
      destruct (analysis_prompt " " "    " _ _ _ _ _); try done.
    cbn. rewrite !Hchat. by destruct answer as [[|[c|] rest]|e].
Qed.

Lemma limiter_is_not_seen_below_the_limit_witness :
  RateLimited.count (∅ : gmap jsstring nat) (RateLimited.ip_of Scenario.request)
    < RateLimited.MAX_REQUESTS_PER_IP
  ∧ out (run Scenario.env_ok (RateLimited.POST Scenario.request) ∅)
    = out (run Scenario.env_ok (Route.POST Scenario.request) ∅).
Proof.
  assert (H : RateLimited.count (∅ : gmap jsstring nat)
                (RateLimited.ip_of Scenario.request)
              < RateLimited.MAX_REQUESTS_PER_IP) by (vm_compute; lia).
  split; [exact H|].
  exact (limiter_is_not_seen_below_the_limit Scenario.env_ok Scenario.request ∅
           (Fulfilled [Some Scenario.answer]) H (fun _ _ => eq_refl)).
Defined.

(** X25: a request costs at most one call of the backend, and a request
    that is counted exactly one. *)
Theorem one_backend_call_at_most (env : Env) (request : Request)
    (m : gmap jsstring nat) :
  Ending.backend_calls (trace (run env (Route.POST request) m)) ≤ 1
  ∧ if Sequential.counted env request m
    then Ending.backend_calls (trace (run env (RateLimited.POST request) m)) = 1
    else Ending.backend_calls (trace (run env (RateLimited.POST request) m)) ≤ 1.
Proof.
  rewrite DirectFacts.run_Route_POST, !DirectFacts.run_RateLimited_POST.
  unfold Direct.Route_POST, Direct.RateLimited_POST, Direct.served,
    Sequential.counted, Sequential.backend_returns, Ending.backend_calls.
  destruct (decide (RateLimited.MAX_REQUESTS_PER_IP
                    ≤ RateLimited.count m (RateLimited.ip_of request)))
    as [Hlim | Hlim].
  - rewrite (bool_decide_true (_ ≤ _)), (bool_decide_false (_ < _)) by lia.
    served_cases; repeat split; lia.
  - rewrite (bool_decide_false (_ ≤ _)), (bool_decide_true (_ < _)) by lia.
    served_cases; repeat split; lia.
Qed.
